(** * dsctl: a shallow embedding of the data-structure control script

    The script [dsctl.py] authenticates against a console, reads a
    self-describing schema from a file or from standard input, and either
    validates it or promotes it.  This development embeds the script's
    functions as functions over Python run-time values, with exceptions
    and the sequence of outside-world effects (HTTP requests, log records,
    standard output) made explicit, and states the properties of the
    request shaping and response interpretation on them. *)

From Stdlib Require Import String Ascii ZArith List Bool Lia.
From Stdlib Require Import DecimalString SpecFloat.
Import ListNotations.
Local Open Scope list_scope.
Local Open Scope string_scope.
Set Warnings "-register-all".

(** ** Python values and exceptions *)

(** The values [json.load] and [Response.json()] can produce.  A dict is
    kept as the list of its items in insertion order; its keys are
    distinct, so that the first match of a key is the dict's lookup. *)
Inductive value : Type :=
| VNone
| VBool (b : bool)
| VInt (z : Z)
| VFloat (f : spec_float)
| VStr (s : string)
| VList (l : list value)
| VDict (d : list (string * value)).

(** The exception classes the script raises, catches or lets escape, taken
    as disjoint, as the order of the [except] clauses supposes. *)
Inductive exn : Type :=
| RequestException
| JSONDecodeError
| KeyError
| ValueError
| TypeError
| AttributeError.

Inductive res (A : Type) : Type :=
| Ret (a : A)
| Raise (e : exn).
Arguments Ret {A} a.
Arguments Raise {A} e.

(** [bool(v)]: Python's truth value testing, as used by [not v]. *)
Definition truthy (v : value) : bool :=
  match v with
  | VNone => false
  | VBool b => b
  | VInt z => negb (Z.eqb z 0)
  | VFloat (S754_zero _) => false
  | VFloat _ => true
  | VStr s => negb (String.eqb s "")
  | VList [] => false
  | VList (_ :: _) => true
  | VDict [] => false
  | VDict (_ :: _) => true
  end.

Fixpoint assoc (key : string) (d : list (string * value)) : option value :=
  match d with
  | [] => None
  | (k, v) :: rest => if String.eqb k key then Some v else assoc key rest
  end.

(** [v[key]] for a string key: a dict looks the key up and raises
    [KeyError] when it is missing; every other value raises [TypeError]
    (a list or a str wants integer indices, the rest cannot be
    subscripted). *)
Definition getitem (v : value) (key : string) : res value :=
  match v with
  | VDict d =>
      match assoc key d with
      | Some x => Ret x
      | None => Raise KeyError
      end
  | _ => Raise TypeError
  end.

(** [s.split(sep)] for a one-character separator. *)
Fixpoint split_on (sep : ascii) (s : string) : list string :=
  match s with
  | EmptyString => [EmptyString]
  | String c rest =>
      if Ascii.eqb c sep then EmptyString :: split_on sep rest
      else match split_on sep rest with
           | [] => [String c EmptyString]
           | hd :: tl => String c hd :: tl
           end
  end.

(** [sep.join(parts)], the inverse of [split_on], in which the round trip
    of a version is stated. *)
Fixpoint join_with (sep : ascii) (parts : list string) : string :=
  match parts with
  | [] => EmptyString
  | [p] => p
  | p :: rest => p ++ String sep (join_with sep rest)
  end.

(** [v.split('-')]: only a str has the method. *)
Definition str_split (v : value) : res (list value) :=
  match v with
  | VStr s => Ret (map VStr (split_on "-"%char s))
  | _ => Raise AttributeError
  end.

(** ** The dataclasses *)

(** A dataclass stores whatever it is given: the annotations ([str],
    [int]) are not checked at run time, so the fields are values. *)
Record DataStructure : Type := mkDataStructure
  { vendor : value; name : value; format : value }.

Record Version : Type := mkVersion
  { model : value; revision : value; addition : value }.

Record Deployment : Type := mkDeployment
  { data_structure : DataStructure; version : Version }.

(** [Version] applied to an unpacked list: the generated [__init__] takes
    exactly three positional arguments and raises [TypeError] for any
    other count. *)
Definition Version_init (parts : list value) : res Version :=
  match parts with
  | [m; r; a] => Ret (mkVersion m r a)
  | _ => Raise TypeError
  end.

Inductive SchemaType : Type := EVENT | ENTITY.

Definition SchemaType_value (t : SchemaType) : string :=
  match t with
  | EVENT => "event"
  | ENTITY => "entity"
  end.

(** [stype in (SchemaType.EVENT, SchemaType.ENTITY)]: the enum derives
    from [str], so membership compares the strings. *)
Definition is_schema_type (stype : string) : bool :=
  existsb (fun t => String.eqb stype (SchemaType_value t)) [EVENT; ENTITY].

(** ** The outside world and the effects of a run *)

Record Response : Type := mkResponse
  { ok : bool;                 (* response.ok *)
    text : string;             (* response.text *)
    json : option value }.     (* response.json(); None: JSONDecodeError *)

Definition headers : Type := list (string * string).

Inductive input_source : Type :=
| FromFile (filename : string)
| FromStdin.

Inductive load_result : Type :=
| Loaded (v : value)           (* json.load returned v *)
| NotJson                      (* json.load raised JSONDecodeError *)
| Unreadable.                  (* any other exception of open/load *)

(** What a run depends on and does not compute itself: the environment
    variables read at import time, the HTTP client (which answers with a
    response, or with [None] when it raises a [RequestException]), the
    JSON loader on the input source, and [str()] on the values that have
    no short literal (floats, lists, dicts). *)
Record World : Type := mkWorld
  { CONSOLE_HOST : string;
    CONSOLE_ORGANIZATION_ID : string;
    CONSOLE_API_KEY : string;
    http_get : string -> headers -> option Response;
    http_post : string -> value -> headers -> option Response;
    json_load : input_source -> load_result;
    repr : value -> string }.

(** The records handed to [logger.error], one constructor per call. *)
Inductive logmsg : Type :=
| CouldNotContact
| GetTokenNotJson (response_text : string)
| GetTokenInvalidBody (body : value)
| ActionFailedErrors (action : string) (errors : value)
| HandleResponseNotJson (response_text : string)
| HandleResponseInvalidBody (body : value)
| ActionFailedText (action : string) (response_text : string)
| BadSchemaType
| SpecIncorrect
| NoSelfElement
| InputNotJson
| CouldNotRead (source : input_source).

Inductive event : Type :=
| EGet (url : string) (h : headers)
| EPost (url : string) (body : value) (h : headers)
| ELog (m : logmsg)
| EStdout (s : string).

Definition trace : Type := list event.

(** A computation: its result (a value or an escaping exception) and the
    effects it performed, in order. *)
Definition M (A : Type) : Type := (res A * trace)%type.

Definition ret {A} (a : A) : M A := (Ret a, []).
Definition raise {A} (e : exn) : M A := (Raise e, []).
Definition lift {A} (r : res A) : M A := (r, []).
Definition emit (e : event) : M unit := (Ret tt, [e]).
Definition log_error (m : logmsg) : M unit := emit (ELog m).

Definition bind {A B} (m : M A) (k : A -> M B) : M B :=
  match m with
  | (Ret a, t) => let (r, t') := k a in (r, (t ++ t')%list)
  | (Raise e, t) => (Raise e, t)
  end.

(** [try: m  except ...:] where [handler e = None] means that no clause
    matches [e], which then keeps propagating. *)
Definition try_except {A} (m : M A) (handler : exn -> option (M A)) : M A :=
  match m with
  | (Ret a, t) => (Ret a, t)
  | (Raise e, t) =>
      match handler e with
      | Some h => let (r, t') := h in (r, (t ++ t')%list)
      | None => (Raise e, t)
      end
  end.

Declare Scope py_scope.
Delimit Scope py_scope with py.
Notation "x <- m ;; k" := (bind m (fun x => k))
  (at level 100, m at next level, right associativity) : py_scope.
Notation "m ;; k" := (bind m (fun _ => k))
  (at level 100, right associativity) : py_scope.
Local Open Scope py_scope.

Definition of_client (answer : option Response) : res Response :=
  match answer with
  | Some response => Ret response
  | None => Raise RequestException
  end.

Definition get (w : World) (url : string) (h : headers) : M Response :=
  (of_client (http_get w url h), [EGet url h]).

Definition post (w : World) (url : string) (body : value) (h : headers)
  : M Response :=
  (of_client (http_post w url body h), [EPost url body h]).

Definition response_json (r : Response) : M value :=
  match json r with
  | Some v => ret v
  | None => raise JSONDecodeError
  end.

(** [str(v)], as the f-strings and [str.format] apply it. *)
Definition py_str (w : World) (v : value) : string :=
  match v with
  | VStr s => s
  | VNone => "None"
  | VBool true => "True"
  | VBool false => "False"
  | VInt z => NilZero.string_of_int (Z.to_int z)
  | _ => repr w v
  end.

Definition BASE_URL (w : World) : string :=
  "https://" ++ CONSOLE_HOST w
    ++ ".snowplowanalytics.com/api/msc/v1/organizations/"
    ++ CONSOLE_ORGANIZATION_ID w.

Definition DS_URL (w : World) : string := BASE_URL w ++ "/data-structures/v1".

(** ** The script's functions *)

(** In [get_token] and [handle_response] the source has one [try] with
    several [except] clauses whose bodies use [response] and [body].  The
    embedding nests one [try_except] per clause so that these names are in
    scope; since no clause body raises and each exception class has one
    origin in the block, the nesting selects the same clause. *)
Definition get_token (w : World) : M value :=
  try_except
    (response <- get w (BASE_URL w ++ "/credentials/v2/token")
                   [("X-API-Key", CONSOLE_API_KEY w)] ;;
     try_except
       (body <- response_json response ;;
        try_except
          (lift (getitem body "accessToken"))
          (fun e => match e with
                    | KeyError =>
                        Some (log_error (GetTokenInvalidBody body) ;; ret VNone)
                    | _ => None
                    end))
       (fun e => match e with
                 | JSONDecodeError =>
                     Some (log_error (GetTokenNotJson (text response)) ;;
                           ret VNone)
                 | _ => None
                 end))
    (fun e => match e with
              | RequestException => Some (log_error CouldNotContact ;; ret VNone)
              | _ => None
              end).

Definition get_base_headers (w : World) (auth_token : value) : headers :=
  [("Authorization", "Bearer " ++ py_str w auth_token)].

Definition handle_response (response : Response) (action : string) : M bool :=
  if ok response then
    try_except
      (body <- response_json response ;;
       try_except
         (success <- lift (getitem body "success") ;;
          if negb (truthy success) then
            errors <- lift (getitem body "errors") ;;
            log_error (ActionFailedErrors action errors) ;;
            ret false
          else ret true)
         (fun e => match e with
                   | KeyError =>
                       Some (log_error (HandleResponseInvalidBody body) ;;
                             ret false)
                   | _ => None
                   end))
      (fun e => match e with
                | JSONDecodeError =>
                    Some (log_error (HandleResponseNotJson (text response)) ;;
                          ret false)
                | _ => None
                end)
  else
    (log_error (ActionFailedText action (text response)) ;; ret false).

Definition on_request_exception {A} (e : exn) : option (M (option A)) :=
  match e with
  | RequestException => Some (log_error CouldNotContact ;; ret None)
  | _ => None
  end.

(** The body [validate] posts. *)
Definition validation_payload (data_structure : value) (stype : string)
    (contains_meta : bool) : value :=
  if negb contains_meta then
    VDict [("meta", VDict [("hidden", VBool false);
                           ("schemaType", VStr stype);
                           ("customData", VDict [])]);
           ("data", data_structure)]
  else data_structure.

Definition validate (w : World) (data_structure : value) (auth_token : value)
    (stype : string) (contains_meta : bool) : M bool :=
  if negb (is_schema_type stype) then
    (log_error BadSchemaType ;; ret false)
  else
    (sent <- try_except
               (response <- post w (DS_URL w ++ "/validation-requests")
                              (validation_payload data_structure stype
                                 contains_meta)
                              (get_base_headers w auth_token) ;;
                ret (Some response))
               on_request_exception ;;
     match sent with
     | None => ret false
     | Some response => handle_response response "validation"
     end).

(** The body [promote] posts. *)
Definition promotion_payload (w : World) (deployment : Deployment)
    (deployment_message : string) (to_production : bool) : value :=
  VDict [("name", name (data_structure deployment));
         ("vendor", vendor (data_structure deployment));
         ("format", format (data_structure deployment));
         ("version",
           VStr (py_str w (model (version deployment)) ++ "-"
                 ++ py_str w (revision (version deployment)) ++ "-"
                 ++ py_str w (addition (version deployment))));
         ("source", VStr (if negb to_production then "VALIDATED" else "DEV"));
         ("target", VStr (if negb to_production then "DEV" else "PROD"));
         ("message", VStr deployment_message)].

Definition promote (w : World) (deployment : Deployment) (auth_token : value)
    (deployment_message : string) (to_production : bool) : M bool :=
  sent <- try_except
            (response <- post w (DS_URL w ++ "/deployment-requests")
                           (promotion_payload w deployment deployment_message
                              to_production)
                           (get_base_headers w auth_token) ;;
             ret (Some response))
            on_request_exception ;;
  match sent with
  | None => ret false
  | Some response => handle_response response "promotion"
  end.

Definition resolve (data_structure : value) (includes_meta : bool)
  : M (option Deployment) :=
  try_except
    (_self <- (if negb includes_meta then lift (getitem data_structure "self")
               else (data <- lift (getitem data_structure "data") ;;
                     lift (getitem data "self"))) ;;
     vendor <- lift (getitem _self "vendor") ;;
     name <- lift (getitem _self "name") ;;
     ds_format <- lift (getitem _self "format") ;;
     version <- lift (getitem _self "version") ;;
     let ds := mkDataStructure vendor name ds_format in
     parts <- lift (str_split version) ;;
     v <- lift (Version_init parts) ;;
     ret (Some (mkDeployment ds v)))
    (fun e => match e with
              | ValueError => Some (log_error SpecIncorrect ;; ret None)
              | KeyError => Some (log_error NoSelfElement ;; ret None)
              | _ => None
              end).

(** The parsed command line. *)
Record Namespace : Type := mkNamespace
  { token_only : bool;
    token : option string;
    file : option string;
    type : option string;
    includes_meta : bool;
    promote_to_dev : bool;
    promote_to_prod : bool;
    message : option string }.

(** [if filename:] chooses the file; [None] and the empty name go to
    standard input. *)
Definition input_of (filename : option string) : input_source :=
  match filename with
  | Some f => if truthy (VStr f) then FromFile f else FromStdin
  | None => FromStdin
  end.

Definition parse_input_file (w : World) (filename : option string) : M value :=
  match json_load w (input_of filename) with
  | Loaded v => ret v
  | NotJson => (log_error InputNotJson ;; ret VNone)
  | Unreadable => (log_error (CouldNotRead (input_of filename)) ;; ret VNone)
  end.

(** [args.message if args.message else "No message provided"] and
    [args.type or "event"]. *)
Definition or_default (o : option string) (default : string) : string :=
  match o with
  | Some s => if truthy (VStr s) then s else default
  | None => default
  end.

(** [args.token if args.token else get_token()]. *)
Definition token_or_fetch (w : World) (args : Namespace) : M value :=
  match token args with
  | Some t => if truthy (VStr t) then ret (VStr t) else get_token w
  | None => get_token w
  end.

Definition flow (w : World) (args : Namespace) : M bool :=
  let message := or_default (message args) "No message provided" in
  token <- token_or_fetch w args ;;
  schema <- parse_input_file w (file args) ;;
  let schema_type := or_default (type args) "event" in
  spec <- resolve schema (includes_meta args) ;;
  match negb (truthy token) || negb (truthy schema), spec with
  | false, Some spec =>
      if promote_to_dev args || promote_to_prod args then
        promote w spec token message
          (if promote_to_prod args then true else false)
      else validate w schema token schema_type (includes_meta args)
  | _, _ => ret false
  end.

(** [sys.stdout.write] accepts a str only. *)
Definition stdout_write (v : value) : M unit :=
  match v with
  | VStr s => emit (EStdout s)
  | _ => raise TypeError
  end.

(** The [__main__] block; the result is the status given to [sys.exit]. *)
Definition main (w : World) (arguments : Namespace) : M Z :=
  if token_only arguments then
    (token <- get_token w ;;
     if negb (truthy token) then ret 1%Z
     else (stdout_write token ;; ret 0%Z))
  else
    (passed <- flow w arguments ;;
     if negb passed then ret 1%Z else ret 0%Z).

(** How the process ends: [sys.exit] with a status, or an exception that
    nothing catches, which the interpreter reports with a traceback. *)
Inductive outcome : Type :=
| Exit (status : Z)
| Traceback (e : exn).

Definition run (w : World) (arguments : Namespace) : outcome * trace :=
  match main w arguments with
  | (Ret status, t) => (Exit status, t)
  | (Raise e, t) => (Traceback e, t)
  end.


(** ** Observations on a trace *)

Definition posts (t : trace) : list (string * value) :=
  flat_map (fun e => match e with
                     | EPost url body _ => [(url, body)]
                     | _ => []
                     end) t.

Definition requests (t : trace) : list event :=
  filter (fun e => match e with
                   | EGet _ _ | EPost _ _ _ => true
                   | _ => false
                   end) t.

Definition logs (t : trace) : list logmsg :=
  flat_map (fun e => match e with
                     | ELog m => [m]
                     | _ => []
                     end) t.

(** What follows a posted request: the interpretation of the response,
    or the record of a transport error. *)
Definition after_post (sent : option Response) (action : string) : M bool :=
  match sent with
  | Some response => handle_response response action
  | None => (Ret false, [ELog CouldNotContact])
  end.

(** ** Example worlds and documents *)

Definition acme_self (ver : value) : value :=
  VDict [("vendor", VStr "com.acme"); ("name", VStr "click");
         ("format", VStr "jsonschema"); ("version", ver)].

Definition acme_document (ver : value) : value :=
  VDict [("self", acme_self ver)].

(** A console that answers every request favourably, and an input source
    that yields [load]. *)
Definition console (load : load_result) : World :=
  mkWorld "console" "org" "key"
    (fun _ _ =>
       Some (mkResponse true "" (Some (VDict [("accessToken", VStr "abc")]))))
    (fun _ _ _ =>
       Some (mkResponse true "" (Some (VDict [("success", VBool true)]))))
    (fun _ => load)
    (fun _ => "").

Definition cli (tok : option string) (dev prod : bool) : Namespace :=
  mkNamespace false tok None None false dev prod None.

(** A world whose token endpoint, whose data-structure endpoints and whose
    input source give the stated answers. *)
Definition world_of (token_answer post_answer : option Response)
    (load : load_result) : World :=
  mkWorld "console" "org" "key"
    (fun _ _ => token_answer)
    (fun _ _ _ => post_answer)
    (fun _ => load)
    (fun _ => "").

Definition json_response (body : value) : Response :=
  mkResponse true "" (Some body).

(** The request [get_token] sends. *)
Definition token_request (w : World) : event :=
  EGet (BASE_URL w ++ "/credentials/v2/token")
       [("X-API-Key", CONSOLE_API_KEY w)].

Definition is_dict (v : value) : bool :=
  match v with
  | VDict _ => true
  | _ => false
  end.

(** Whether the command line gives a token that [flow] will use. *)
Definition explicit_token (args : Namespace) : bool :=
  match token args with
  | Some t => truthy (VStr t)
  | None => false
  end.

(** What [flow] dispatches once it has its three parts. *)
Definition dispatch (w : World) (args : Namespace) (tok schema : value)
    (spec : Deployment) : M bool :=
  if promote_to_dev args || promote_to_prod args then
    promote w spec tok (or_default (message args) "No message provided")
      (promote_to_prod args)
  else
    validate w schema tok (or_default (type args) "event")
      (includes_meta args).

(** ** General facts about the embedding *)

Lemma posts_app (t u : trace) :
  posts (t ++ u)%list = (posts t ++ posts u)%list.
Proof. unfold posts. now rewrite flat_map_app. Qed.

Lemma bind_run {A B} (m : M A) (k : A -> M B) (a : A) (t : trace) :
  m = (Ret a, t) ->
  bind m k = (fst (k a), (t ++ snd (k a))%list).
Proof. intros ->. unfold bind. now destruct (k a). Qed.

(** Case analysis on whatever the goal is stuck on. *)
Ltac step :=
  match goal with
  | |- context [match ?x with _ => _ end] =>
      lazymatch x with
      | context [match _ with _ => _ end] => fail
      | _ => destruct x eqn:?
      end
  end.

Ltac run_m :=
  cbn [bind try_except ret raise lift emit log_error response_json fst snd
       of_client
       on_request_exception app posts requests logs flat_map filter] in *.

(** [handle_response] logs and returns; it contacts nobody. *)
Lemma handle_response_quiet (r : Response) (action : string) :
  requests (snd (handle_response r action)) = [].
Proof.
  unfold handle_response.
  destruct (ok r); [| reflexivity].
  unfold response_json. destruct (json r) as [body|]; [| reflexivity].
  run_m. unfold getitem.
  destruct body; try reflexivity.
  destruct (assoc "success" d) as [s|]; [| reflexivity].
  run_m. destruct (truthy s); [reflexivity |].
  run_m. destruct (assoc "errors" d); reflexivity.
Qed.

Lemma requests_nil_posts_nil (t : trace) : requests t = [] -> posts t = [].
Proof.
  induction t as [|e t IH]; [reflexivity |].
  destruct e; cbn; try discriminate; exact IH.
Qed.

Lemma after_post_quiet (sent : option Response) (action : string) :
  requests (snd (after_post sent action)) = [].
Proof.
  destruct sent as [r|]; [apply handle_response_quiet | reflexivity].
Qed.

Lemma validate_run (w : World) (doc tok : value) (stype : string)
    (contains_meta : bool) :
  is_schema_type stype = true ->
  let url := DS_URL w ++ "/validation-requests" in
  let body := validation_payload doc stype contains_meta in
  let h := get_base_headers w tok in
  validate w doc tok stype contains_meta =
    (fst (after_post (http_post w url body h) "validation"),
     EPost url body h :: snd (after_post (http_post w url body h) "validation")).
Proof.
  intros Hty url body h. unfold validate. rewrite Hty. cbn [negb].
  unfold post. fold url body h.
  destruct (http_post w url body h) as [r|]; run_m; [| reflexivity].
  unfold after_post. now destruct (handle_response r "validation").
Qed.

Lemma promote_run (w : World) (d : Deployment) (tok : value) (msg : string)
    (to_production : bool) :
  let url := DS_URL w ++ "/deployment-requests" in
  let body := promotion_payload w d msg to_production in
  let h := get_base_headers w tok in
  promote w d tok msg to_production =
    (fst (after_post (http_post w url body h) "promotion"),
     EPost url body h :: snd (after_post (http_post w url body h) "promotion")).
Proof.
  intros url body h. unfold promote, post. fold url body h.
  destruct (http_post w url body h) as [r|]; run_m; [| reflexivity].
  unfold after_post. now destruct (handle_response r "promotion").
Qed.

Lemma posts_validate (w : World) (doc tok : value) (stype : string)
    (contains_meta : bool) :
  is_schema_type stype = true ->
  posts (snd (validate w doc tok stype contains_meta)) =
    [(DS_URL w ++ "/validation-requests",
      validation_payload doc stype contains_meta)].
Proof.
  intros Hty. rewrite (validate_run _ _ _ _ _ Hty). cbn [snd].
  change (posts (EPost ?u ?b ?h :: ?t)) with ((u, b) :: posts t).
  now rewrite (requests_nil_posts_nil _ (after_post_quiet _ _)).
Qed.

Lemma posts_promote (w : World) (d : Deployment) (tok : value) (msg : string)
    (to_production : bool) :
  posts (snd (promote w d tok msg to_production)) =
    [(DS_URL w ++ "/deployment-requests",
      promotion_payload w d msg to_production)].
Proof.
  rewrite promote_run. cbn [snd].
  change (posts (EPost ?u ?b ?h :: ?t)) with ((u, b) :: posts t).
  now rewrite (requests_nil_posts_nil _ (after_post_quiet _ _)).
Qed.

Lemma is_schema_type_true (stype : string) :
  is_schema_type stype = true <-> stype = "event" \/ stype = "entity".
Proof.
  unfold is_schema_type. cbn. rewrite !orb_true_iff, !String.eqb_eq.
  intuition discriminate.
Qed.

Lemma is_schema_type_false (stype : string) :
  is_schema_type stype = false <-> stype <> "event" /\ stype <> "entity".
Proof.
  unfold is_schema_type. cbn. rewrite !orb_false_iff, !String.eqb_neq.
  intuition.
Qed.

(** ** Validation *)

(** C7. For every schema type other than "event" and "entity", [validate]
    returns failure and contacts nobody: its only effect is the log
    record, whatever the document, the token and the envelope flag are. *)
Theorem validate_rejects_unknown_type (w : World) (doc tok : value)
    (stype : string) (contains_meta : bool) :
  stype <> "event" -> stype <> "entity" ->
  validate w doc tok stype contains_meta = (Ret false, [ELog BadSchemaType])
  /\ requests (snd (validate w doc tok stype contains_meta)) = [].
Proof.
  intros Hev Hen.
  assert (Hty : is_schema_type stype = false)
    by now apply is_schema_type_false.
  unfold validate. rewrite Hty. split; reflexivity.
Qed.

Lemma validate_rejects_unknown_type_witness :
  "struct" <> "event" /\ "struct" <> "entity" /\
  validate (console NotJson) (acme_document (VStr "1-0-0")) (VStr "abc")
    "struct" true = (Ret false, [ELog BadSchemaType]).
Proof.
  split; [discriminate |]. split; [discriminate |].
  apply (validate_rejects_unknown_type (console NotJson)
           (acme_document (VStr "1-0-0")) (VStr "abc") "struct" true);
    discriminate.
Defined.

(** C5. For every document and every schema type among "event" and
    "entity", [validate] posts exactly one body: without an envelope, the
    document wrapped as [{meta: {hidden: false, schemaType, customData: {}},
    data: document}]; with an envelope, the document itself. *)
Theorem validate_sends_payload (w : World) (doc tok : value) (stype : string) :
  stype = "event" \/ stype = "entity" ->
  posts (snd (validate w doc tok stype false)) =
    [(DS_URL w ++ "/validation-requests",
      VDict [("meta", VDict [("hidden", VBool false);
                             ("schemaType", VStr stype);
                             ("customData", VDict [])]);
             ("data", doc)])]
  /\ posts (snd (validate w doc tok stype true)) =
       [(DS_URL w ++ "/validation-requests", doc)].
Proof.
  intros Hty. apply is_schema_type_true in Hty.
  split; rewrite (posts_validate _ _ _ _ _ Hty); reflexivity.
Qed.

Lemma validate_sends_payload_witness :
  ("entity" = "event" \/ "entity" = "entity") /\
  posts (snd (validate (console NotJson) (acme_document (VStr "1-0-0"))
                (VStr "abc") "entity" false)) =
    [(DS_URL (console NotJson) ++ "/validation-requests",
      VDict [("meta", VDict [("hidden", VBool false);
                             ("schemaType", VStr "entity");
                             ("customData", VDict [])]);
             ("data", acme_document (VStr "1-0-0"))])].
Proof.
  split; [right; reflexivity |].
  apply (validate_sends_payload (console NotJson)
           (acme_document (VStr "1-0-0")) (VStr "abc") "entity").
  right. reflexivity.
Defined.

(** ** Promotion *)

(** C6. For every deployment, token and message, [promote] posts exactly
    one body.  Without [to_production] its source is "VALIDATED" and its
    target "DEV"; with [to_production] its source is "DEV" and its target
    "PROD".  In both the version member is the model, the revision and the
    addition of the deployment joined by hyphens. *)
Theorem promote_sends_payload (w : World) (d : Deployment) (tok : value)
    (msg : string) (to_production : bool) :
  exists body : value,
    posts (snd (promote w d tok msg to_production)) =
      [(DS_URL w ++ "/deployment-requests", body)]
    /\ getitem body "source" =
         Ret (VStr (if to_production then "DEV" else "VALIDATED"))
    /\ getitem body "target" =
         Ret (VStr (if to_production then "PROD" else "DEV"))
    /\ getitem body "version" =
         Ret (VStr (py_str w (model (version d)) ++ "-"
                    ++ py_str w (revision (version d)) ++ "-"
                    ++ py_str w (addition (version d)))).
Proof.
  exists (promotion_payload w d msg to_production).
  split; [apply posts_promote |].
  destruct to_production; repeat split; reflexivity.
Qed.

(** ** Response interpretation *)

Lemma handle_response_true_iff (r : Response) (action : string) :
  fst (handle_response r action) = Ret true <->
  ok r = true /\
  exists body success : value,
    json r = Some body /\ getitem body "success" = Ret success
    /\ truthy success = true.
Proof.
  unfold handle_response, response_json.
  destruct (ok r); [| split; [discriminate | intros [H _]; discriminate]].
  destruct (json r) as [body|]; run_m;
    [| split; [discriminate | intros [_ (b & s & H & _)]; discriminate]].
  destruct (getitem body "success") as [s|e] eqn:Hs; run_m.
  - destruct (truthy s) eqn:Ht; run_m.
    + split; [intros _ | reflexivity].
      split; [reflexivity |]. now exists body, s.
    + split.
      * destruct (getitem body "errors") as [x|e]; run_m;
          [discriminate | now destruct e].
      * intros [_ (b & s' & Hb & Hs' & Ht')].
        injection Hb as <-. rewrite Hs in Hs'. injection Hs' as <-.
        rewrite Ht in Ht'. discriminate.
  - split.
    + now destruct e.
    + intros [_ (b & s' & Hb & Hs' & _)].
      injection Hb as <-. rewrite Hs in Hs'. discriminate.
Qed.

Lemma handle_response_falsy (r : Response) (action : string)
    (body success : value) :
  ok r = true -> json r = Some body ->
  getitem body "success" = Ret success -> truthy success = false ->
  fst (handle_response r action) = Ret false.
Proof.
  intros Hok Hj Hs Ht. unfold handle_response, response_json.
  rewrite Hok, Hj. run_m. rewrite Hs. run_m. rewrite Ht. run_m.
  destruct body; try discriminate. unfold getitem.
  destruct (assoc "errors" d); reflexivity.
Qed.

(** C4 (amended). [handle_response] returns success exactly when the
    response is [ok], its body parses as JSON and the body's "success"
    member has a true truth value (for a JSON boolean: is [true]).  A
    response that is not [ok], a body that does not parse, and a "success"
    member with a false truth value each give failure.  [validate] and
    [promote] both return what [handle_response] makes of the response they
    received, and failure when the request raised a transport error. *)
Theorem handle_response_success_iff (r : Response) (action : string) :
  (fst (handle_response r action) = Ret true <->
   ok r = true /\
   exists body success : value,
     json r = Some body /\ getitem body "success" = Ret success
     /\ truthy success = true)
  /\ (ok r = false -> fst (handle_response r action) = Ret false)
  /\ (json r = None -> fst (handle_response r action) = Ret false)
  /\ (forall body success : value,
        json r = Some body -> getitem body "success" = Ret success ->
        truthy success = false ->
        fst (handle_response r action) = Ret false)
  /\ (forall (w : World) (doc tok : value) (stype : string) (meta : bool),
        is_schema_type stype = true ->
        let sent := http_post w (DS_URL w ++ "/validation-requests")
                      (validation_payload doc stype meta)
                      (get_base_headers w tok) in
        (sent = Some r ->
         fst (validate w doc tok stype meta)
         = fst (handle_response r "validation"))
        /\ (sent = None ->
            fst (validate w doc tok stype meta) = Ret false))
  /\ (forall (w : World) (d : Deployment) (tok : value) (msg : string)
             (to_production : bool),
        let sent := http_post w (DS_URL w ++ "/deployment-requests")
                      (promotion_payload w d msg to_production)
                      (get_base_headers w tok) in
        (sent = Some r ->
         fst (promote w d tok msg to_production)
         = fst (handle_response r "promotion"))
        /\ (sent = None ->
            fst (promote w d tok msg to_production) = Ret false)).
Proof.
  split; [apply handle_response_true_iff |].
  split; [intros Hok; unfold handle_response; now rewrite Hok |].
  split.
  { intros Hj. unfold handle_response, response_json. rewrite Hj.
    now destruct (ok r). }
  split.
  { intros body success Hj Hs Ht. destruct (ok r) eqn:Hok.
    - now apply (handle_response_falsy r action body success).
    - unfold handle_response. now rewrite Hok. }
  split.
  - intros w doc tok stype meta Hty sent. subst sent.
    rewrite (validate_run _ _ _ _ _ Hty). cbn [fst].
    split; intros ->; reflexivity.
  - intros w d tok msg to_production sent. subst sent.
    rewrite promote_run. cbn [fst].
    split; intros ->; reflexivity.
Qed.

Lemma handle_response_success_iff_witness :
  fst (handle_response
         (mkResponse true "" (Some (VDict [("success", VBool true)])))
         "validation") = Ret true.
Proof.
  apply (proj1 (handle_response_success_iff
                  (mkResponse true "" (Some (VDict [("success", VBool true)])))
                  "validation")).
  split; [reflexivity |].
  exists (VDict [("success", VBool true)]), (VBool true).
  repeat split; reflexivity.
Defined.

(** C4 as first stated does not hold: a body whose "success" member is the
    string "no", which is not [true], is interpreted as success. *)
Lemma handle_response_success_not_only_true :
  let r := mkResponse true "" (Some (VDict [("success", VStr "no")])) in
  fst (handle_response r "validation") = Ret true
  /\ ~ (fst (handle_response r "validation") = Ret true <->
        ok r = true /\
        exists body : value,
          json r = Some body /\ getitem body "success" = Ret (VBool true)).
Proof.
  intros r. split; [reflexivity |].
  intros [H _]. destruct (H eq_refl) as [_ (body & Hj & Hs)].
  injection Hj as <-. discriminate Hs.
Qed.

(** ** The flow *)

Lemma get_token_no_posts (w : World) : posts (snd (get_token w)) = [].
Proof.
  unfold get_token, get.
  destruct (http_get w _ _) as [r|]; run_m; [| reflexivity].
  unfold response_json. destruct (json r) as [body|]; run_m;
    [| reflexivity].
  destruct (getitem body "accessToken") as [v|e]; run_m;
    [reflexivity | now destruct e].
Qed.

Lemma token_or_fetch_no_posts (w : World) (args : Namespace) :
  posts (snd (token_or_fetch w args)) = [].
Proof.
  unfold token_or_fetch.
  destruct (token args) as [t|]; [destruct (truthy (VStr t)) |];
    try apply get_token_no_posts; reflexivity.
Qed.

Lemma parse_input_file_quiet (w : World) (filename : option string) :
  requests (snd (parse_input_file w filename)) = [].
Proof.
  unfold parse_input_file. now destruct (json_load w (input_of filename)).
Qed.

(** [resolve] can log, and does nothing else to the world. *)
Lemma resolve_quiet (doc : value) (meta : bool) :
  requests (snd (resolve doc meta)) = [].
Proof.
  unfold resolve.
  assert (H : forall (m : M (option Deployment)) h,
             snd m = [] ->
             (forall e k, h e = Some k -> requests (snd k) = []) ->
             requests (snd (try_except m h)) = []).
  { intros [[a|e] t] h Ht Hh; cbn in *; subst; [reflexivity |].
    destruct (h e) as [k|] eqn:Hk; [| reflexivity].
    specialize (Hh e k Hk). destruct k as [rk tk]. exact Hh. }
  apply H.
  - unfold lift, bind, ret. repeat step; reflexivity.
  - intros e k. destruct e; intros Hk; inversion Hk; reflexivity.
Qed.

Section FlowWithAllParts.
Variables (w : World) (args : Namespace).
Variables (tok schema : value) (spec : Deployment).
Hypothesis Htoken : fst (token_or_fetch w args) = Ret tok.
Hypothesis Htoken_present : truthy tok = true.
Hypothesis Hschema : fst (parse_input_file w (file args)) = Ret schema.
Hypothesis Hschema_present : truthy schema = true.
Hypothesis Hspec : fst (resolve schema (includes_meta args)) = Ret (Some spec).

(** With a token, a document and an identity, [flow] is its dispatch. *)
Lemma flow_dispatch :
  let m :=
    if promote_to_dev args || promote_to_prod args then
      promote w spec tok (or_default (message args) "No message provided")
        (promote_to_prod args)
    else
      validate w schema tok (or_default (type args) "event")
        (includes_meta args) in
  fst (flow w args) = fst m
  /\ posts (snd (flow w args)) = posts (snd m).
Proof.
  intros m.
  pose proof (token_or_fetch_no_posts w args) as P1.
  pose proof (parse_input_file_quiet w (file args)) as P2.
  pose proof (resolve_quiet schema (includes_meta args)) as P3.
  apply requests_nil_posts_nil in P2, P3.
  assert (E1 : token_or_fetch w args
               = (Ret tok, snd (token_or_fetch w args)))
    by (rewrite <- Htoken; apply surjective_pairing).
  assert (E2 : parse_input_file w (file args)
               = (Ret schema, snd (parse_input_file w (file args))))
    by (rewrite <- Hschema; apply surjective_pairing).
  assert (E3 : resolve schema (includes_meta args)
               = (Ret (Some spec), snd (resolve schema (includes_meta args))))
    by (rewrite <- Hspec; apply surjective_pairing).
  unfold flow.
  rewrite (bind_run _ _ _ _ E1). cbn beta.
  rewrite (bind_run _ _ _ _ E2). cbn beta.
  rewrite (bind_run _ _ _ _ E3). cbn beta.
  rewrite Htoken_present, Hschema_present. cbn [negb orb fst snd].
  replace (if promote_to_prod args then true else false)
    with (promote_to_prod args) by now destruct (promote_to_prod args).
  fold m. split; [reflexivity |].
  rewrite !posts_app, P1, P2, P3. reflexivity.
Qed.
End FlowWithAllParts.

(** C9. When both promotion flags are set and the flow has its token, its
    document and its identity, the flow dispatches exactly one request, a
    promotion whose source is "DEV" and whose target is "PROD". *)
Theorem flow_prefers_production (w : World) (args : Namespace)
    (tok schema : value) (spec : Deployment) :
  promote_to_dev args = true ->
  promote_to_prod args = true ->
  fst (token_or_fetch w args) = Ret tok -> truthy tok = true ->
  fst (parse_input_file w (file args)) = Ret schema -> truthy schema = true ->
  fst (resolve schema (includes_meta args)) = Ret (Some spec) ->
  exists body : value,
    posts (snd (flow w args)) = [(DS_URL w ++ "/deployment-requests", body)]
    /\ getitem body "source" = Ret (VStr "DEV")
    /\ getitem body "target" = Ret (VStr "PROD").
Proof.
  intros Hdev Hprod Ht Htp Hs Hsp Hr.
  destruct (flow_dispatch w args tok schema spec Ht Htp Hs Hsp Hr) as [_ Hp].
  rewrite Hdev, Hprod in Hp. cbn [orb] in Hp.
  rewrite posts_promote in Hp.
  eexists. split; [exact Hp |]. split; reflexivity.
Qed.

Lemma flow_prefers_production_witness :
  exists body : value,
    posts (snd (flow (console (Loaded (acme_document (VStr "1-0-0"))))
                  (cli (Some "abc") true true))) =
      [(DS_URL (console (Loaded (acme_document (VStr "1-0-0"))))
          ++ "/deployment-requests", body)]
    /\ getitem body "source" = Ret (VStr "DEV")
    /\ getitem body "target" = Ret (VStr "PROD").
Proof.
  apply (flow_prefers_production
           (console (Loaded (acme_document (VStr "1-0-0"))))
           (cli (Some "abc") true true)
           (VStr "abc") (acme_document (VStr "1-0-0"))
           (mkDeployment
              (mkDataStructure (VStr "com.acme") (VStr "click")
                 (VStr "jsonschema"))
              (mkVersion (VStr "1") (VStr "0") (VStr "0"))));
    reflexivity.
Defined.

(** C10. When no type is given and no promotion flag is set, and the flow
    has its token, its document and its identity, the flow is a validation
    with schema type "event": it returns what [validate] returns for
    "event" and posts exactly the validation request for "event". *)
Theorem flow_defaults_type_to_event (w : World) (args : Namespace)
    (tok schema : value) (spec : Deployment) :
  type args = None ->
  promote_to_dev args = false ->
  promote_to_prod args = false ->
  fst (token_or_fetch w args) = Ret tok -> truthy tok = true ->
  fst (parse_input_file w (file args)) = Ret schema -> truthy schema = true ->
  fst (resolve schema (includes_meta args)) = Ret (Some spec) ->
  fst (flow w args) = fst (validate w schema tok "event" (includes_meta args))
  /\ posts (snd (flow w args)) =
       [(DS_URL w ++ "/validation-requests",
         validation_payload schema "event" (includes_meta args))].
Proof.
  intros Hty Hdev Hprod Ht Htp Hs Hsp Hr.
  destruct (flow_dispatch w args tok schema spec Ht Htp Hs Hsp Hr) as [Hf Hp].
  rewrite Hdev, Hprod, Hty in Hf, Hp. cbn [orb or_default] in Hf, Hp.
  split; [exact Hf |]. rewrite Hp.
  apply posts_validate. reflexivity.
Qed.

Lemma flow_defaults_type_to_event_witness :
  fst (flow (console (Loaded (acme_document (VStr "1-0-0"))))
         (cli (Some "abc") false false)) =
  fst (validate (console (Loaded (acme_document (VStr "1-0-0"))))
         (acme_document (VStr "1-0-0")) (VStr "abc") "event" false)
  /\ posts (snd (flow (console (Loaded (acme_document (VStr "1-0-0"))))
                   (cli (Some "abc") false false))) =
       [(DS_URL (console (Loaded (acme_document (VStr "1-0-0"))))
           ++ "/validation-requests",
         validation_payload (acme_document (VStr "1-0-0")) "event" false)].
Proof.
  apply (flow_defaults_type_to_event
           (console (Loaded (acme_document (VStr "1-0-0"))))
           (cli (Some "abc") false false)
           (VStr "abc") (acme_document (VStr "1-0-0"))
           (mkDeployment
              (mkDataStructure (VStr "com.acme") (VStr "click")
                 (VStr "jsonschema"))
              (mkVersion (VStr "1") (VStr "0") (VStr "0"))));
    reflexivity.
Defined.

(** ** Identity resolution *)

(** On a document whose [self] section has all four members and a str
    version, the result of [resolve] is decided by the number of
    hyphen-separated parts alone: three parts are stored as they are,
    any other count raises a [TypeError] that [resolve] does not catch. *)
Lemma resolve_by_part_count (d : list (string * value)) (v n f : value)
    (s : string) :
  assoc "vendor" d = Some v -> assoc "name" d = Some n ->
  assoc "format" d = Some f -> assoc "version" d = Some (VStr s) ->
  resolve (VDict [("self", VDict d)]) false =
    match split_on "-"%char s with
    | [a; b; c] =>
        (Ret (Some (mkDeployment (mkDataStructure v n f)
                      (mkVersion (VStr a) (VStr b) (VStr c)))), [])
    | _ => (Raise TypeError, [])
    end.
Proof.
  intros Hv Hn Hf Hs. unfold resolve. cbn [negb getitem assoc String.eqb].
  cbn. rewrite Hv, Hn, Hf, Hs. cbn.
  destruct (split_on "-"%char s) as [|a [|b [|c [|x l]]]]; reflexivity.
Qed.

Lemma split_on_join (sep : ascii) (s : string) :
  join_with sep (split_on sep s) = s.
Proof.
  induction s as [|c rest IH]; [reflexivity |].
  cbn [split_on]. destruct (Ascii.eqb c sep) eqn:Hc.
  - apply Ascii.eqb_eq in Hc. subst c.
    destruct (split_on sep rest) as [|hd tl] eqn:Hsp.
    + destruct rest; cbn in Hsp; [discriminate |].
      destruct (Ascii.eqb a sep); [discriminate |].
      destruct (split_on sep rest); discriminate.
    + rewrite <- IH. reflexivity.
  - destruct (split_on sep rest) as [|hd tl]; [cbn in IH; now subst |].
    rewrite <- IH. destruct tl; reflexivity.
Qed.

(** Whenever [resolve] builds a Deployment from a str version, [promote]
    sends that very string as the version. *)
Lemma resolve_promote_round_trip (d : list (string * value)) (v n f : value)
    (s : string) (dep : Deployment) :
  assoc "vendor" d = Some v -> assoc "name" d = Some n ->
  assoc "format" d = Some f -> assoc "version" d = Some (VStr s) ->
  fst (resolve (VDict [("self", VDict d)]) false) = Ret (Some dep) ->
  forall (w : World) (msg : string) (to_production : bool),
    getitem (promotion_payload w dep msg to_production) "version"
    = Ret (VStr s).
Proof.
  intros Hv Hn Hf Hs Hr w msg to_production.
  rewrite (resolve_by_part_count d v n f s Hv Hn Hf Hs) in Hr.
  pose proof (split_on_join "-"%char s) as Hj.
  destruct (split_on "-"%char s) as [|a [|b [|c [|x l]]]];
    cbn [fst] in Hr; try discriminate.
  injection Hr as <-. cbn in Hj. cbn. now rewrite Hj.
Qed.

(** C1, on the code.  The version "a-b-c" has three parts, none of them an
    integer, and [resolve] builds a Deployment from it; the versions "1-0"
    and "1-0-0-0" make [resolve] raise [TypeError], which none of its
    [except] clauses catches. *)
Theorem resolve_malformed_version :
  resolve (acme_document (VStr "a-b-c")) false =
    (Ret (Some (mkDeployment
                  (mkDataStructure (VStr "com.acme") (VStr "click")
                     (VStr "jsonschema"))
                  (mkVersion (VStr "a") (VStr "b") (VStr "c")))), [])
  /\ resolve (acme_document (VStr "1-0")) false = (Raise TypeError, [])
  /\ resolve (acme_document (VStr "1-0-0-0")) false = (Raise TypeError, []).
Proof. repeat split; reflexivity. Qed.

(** C8, on the code.  The document of the claim resolves to the identity
    (com.acme, click, jsonschema) and to a version whose members are the
    strings "1", "0" and "0", not the integers 1, 0 and 0; joined by
    hyphens as [promote] does, they give "1-0-0" again. *)
Theorem resolve_acme_click :
  exists d : Deployment,
    resolve (acme_document (VStr "1-0-0")) false = (Ret (Some d), [])
    /\ data_structure d =
         mkDataStructure (VStr "com.acme") (VStr "click") (VStr "jsonschema")
    /\ version d = mkVersion (VStr "1") (VStr "0") (VStr "0")
    /\ version d <> mkVersion (VInt 1) (VInt 0) (VInt 0)
    /\ forall (w : World) (msg : string) (to_production : bool),
         getitem (promotion_payload w d msg to_production) "version"
         = Ret (VStr "1-0-0").
Proof.
  eexists. split; [reflexivity |].
  repeat split; try reflexivity. discriminate.
Qed.

(** ** Failures at the level of the process *)

(** C3, on the code.  With a token but an input that is not JSON, or that
    cannot be read, [flow] does not return: [resolve] is applied to [None]
    before the three parts are checked, and the [TypeError] escapes.  No
    request has been posted by then. *)
Theorem flow_raises_without_document :
  flow (console NotJson) (cli (Some "abc") false false)
  = (Raise TypeError, [ELog InputNotJson])
  /\ flow (console Unreadable) (cli (Some "abc") false false)
     = (Raise TypeError, [ELog (CouldNotRead FromStdin)]).
Proof. split; reflexivity. Qed.

(** C2, on the code.  Three runs with local input of the malformed kind:
    a version with two parts and an input that is not JSON both end in a
    traceback for an uncaught [TypeError] (the first without any log
    record); a version with three non-integer parts is not a failure at
    all, the run validates the document and exits with status 0. *)
Theorem run_on_malformed_input :
  run (console (Loaded (acme_document (VStr "1-0"))))
    (cli (Some "abc") false false) = (Traceback TypeError, [])
  /\ run (console NotJson) (cli (Some "abc") false false)
     = (Traceback TypeError, [ELog InputNotJson])
  /\ fst (run (console (Loaded (acme_document (VStr "a-b-c"))))
            (cli (Some "abc") false false)) = Exit 0
  /\ logs (snd (run (console (Loaded (acme_document (VStr "a-b-c"))))
                  (cli (Some "abc") false false))) = [].
Proof. repeat split; reflexivity. Qed.

(** ** The failures that are handled *)

(** The token endpoint: a transport error, a body that is not JSON and a
    JSON object without "accessToken" are logged and give [None]; an
    object with the member gives its value. *)
Lemma get_token_cases (w : World) :
  let url := BASE_URL w ++ "/credentials/v2/token" in
  let h := [("X-API-Key", CONSOLE_API_KEY w)] in
  (http_get w url h = None ->
   get_token w = (Ret VNone, [EGet url h; ELog CouldNotContact]))
  /\ (forall r, http_get w url h = Some r -> json r = None ->
      get_token w = (Ret VNone, [EGet url h; ELog (GetTokenNotJson (text r))]))
  /\ (forall r d, http_get w url h = Some r -> json r = Some (VDict d) ->
      assoc "accessToken" d = None ->
      get_token w =
        (Ret VNone, [EGet url h; ELog (GetTokenInvalidBody (VDict d))]))
  /\ (forall r d v, http_get w url h = Some r -> json r = Some (VDict d) ->
      assoc "accessToken" d = Some v ->
      get_token w = (Ret v, [EGet url h])).
Proof.
  intros url h. unfold get_token, get, response_json. fold url h.
  repeat split.
  - intros ->. reflexivity.
  - intros r -> Hj. run_m. rewrite Hj. reflexivity.
  - intros r d -> Hj Hd. run_m. rewrite Hj. run_m.
    unfold getitem. rewrite Hd. reflexivity.
  - intros r d v -> Hj Hd. run_m. rewrite Hj. run_m.
    unfold getitem. rewrite Hd. reflexivity.
Qed.

(** A document without [self] (or without [data], or [data.self], under
    an envelope) is logged and gives no Deployment. *)
Lemma resolve_missing_self (d : list (string * value)) :
  (assoc "self" d = None ->
   resolve (VDict d) false = (Ret None, [ELog NoSelfElement]))
  /\ (assoc "data" d = None ->
      resolve (VDict d) true = (Ret None, [ELog NoSelfElement]))
  /\ (forall d', assoc "data" d = Some (VDict d') -> assoc "self" d' = None ->
      resolve (VDict d) true = (Ret None, [ELog NoSelfElement])).
Proof.
  unfold resolve. repeat split.
  - intros H. cbn. now rewrite H.
  - intros H. cbn. now rewrite H.
  - intros d' H H'. cbn. rewrite H. cbn. now rewrite H'.
Qed.

(** When the three parts have been computed and one of them is absent,
    [flow] returns failure and has posted nothing. *)
Lemma flow_absent_part (w : World) (args : Namespace) (tok schema : value)
    (spec : option Deployment) :
  fst (token_or_fetch w args) = Ret tok ->
  fst (parse_input_file w (file args)) = Ret schema ->
  fst (resolve schema (includes_meta args)) = Ret spec ->
  truthy tok = false \/ truthy schema = false \/ spec = None ->
  fst (flow w args) = Ret false /\ posts (snd (flow w args)) = [].
Proof.
  intros Ht Hs Hr Habsent.
  pose proof (token_or_fetch_no_posts w args) as P1.
  pose proof (parse_input_file_quiet w (file args)) as P2.
  pose proof (resolve_quiet schema (includes_meta args)) as P3.
  apply requests_nil_posts_nil in P2, P3.
  assert (E1 : token_or_fetch w args = (Ret tok, snd (token_or_fetch w args)))
    by (rewrite <- Ht; apply surjective_pairing).
  assert (E2 : parse_input_file w (file args)
               = (Ret schema, snd (parse_input_file w (file args))))
    by (rewrite <- Hs; apply surjective_pairing).
  assert (E3 : resolve schema (includes_meta args)
               = (Ret spec, snd (resolve schema (includes_meta args))))
    by (rewrite <- Hr; apply surjective_pairing).
  unfold flow.
  rewrite (bind_run _ _ _ _ E1). cbn beta.
  rewrite (bind_run _ _ _ _ E2). cbn beta.
  rewrite (bind_run _ _ _ _ E3). cbn beta.
  assert (Hret : match negb (truthy tok) || negb (truthy schema), spec with
                 | false, Some spec0 =>
                     if promote_to_dev args || promote_to_prod args then
                       promote w spec0 tok
                         (or_default (message args) "No message provided")
                         (if promote_to_prod args then true else false)
                     else
                       validate w schema tok (or_default (type args) "event")
                         (includes_meta args)
                 | _, _ => ret false
                 end = ret false).
  { destruct Habsent as [H | [H | H]]; rewrite H; cbn [negb orb];
      [reflexivity | | now destruct (negb (truthy tok) || negb (truthy schema))].
    rewrite orb_true_r. reflexivity. }
  rewrite Hret. cbn [fst snd ret]. split; [reflexivity |].
  rewrite !posts_app, P1, P2, P3. reflexivity.
Qed.

(** When the input did not load, [parse_input_file] gives [None], and
    [flow], which resolves before it checks, raises. *)
Lemma flow_raises_on_none (w : World) (args : Namespace) (tok : value) :
  fst (token_or_fetch w args) = Ret tok ->
  fst (parse_input_file w (file args)) = Ret VNone ->
  fst (flow w args) = Raise TypeError /\ posts (snd (flow w args)) = [].
Proof.
  intros Ht Hs.
  pose proof (token_or_fetch_no_posts w args) as P1.
  pose proof (parse_input_file_quiet w (file args)) as P2.
  apply requests_nil_posts_nil in P2.
  assert (E1 : token_or_fetch w args = (Ret tok, snd (token_or_fetch w args)))
    by (rewrite <- Ht; apply surjective_pairing).
  assert (E2 : parse_input_file w (file args)
               = (Ret VNone, snd (parse_input_file w (file args))))
    by (rewrite <- Hs; apply surjective_pairing).
  unfold flow.
  rewrite (bind_run _ _ _ _ E1). cbn beta.
  rewrite (bind_run _ _ _ _ E2). cbn beta.
  replace (resolve VNone (includes_meta args))
    with (@raise (option Deployment) TypeError)
    by now destruct (includes_meta args).
  cbn [bind raise fst snd]. split; [reflexivity |].
  rewrite !posts_app, P1, P2. reflexivity.
Qed.


(** ** The token endpoint *)

Lemma requests_app (t u : trace) :
  requests (t ++ u)%list = (requests t ++ requests u)%list.
Proof. unfold requests. now rewrite filter_app. Qed.

Lemma logs_app (t u : trace) : logs (t ++ u)%list = (logs t ++ logs u)%list.
Proof. unfold logs. now rewrite flat_map_app. Qed.

Lemma bind_raised {A B} (m : M A) (k : A -> M B) (e : exn) (t : trace) :
  m = (Raise e, t) -> bind m k = (Raise e, t).
Proof. now intros ->. Qed.

Lemma getitem_not_dict (v : value) (key : string) :
  is_dict v = false -> getitem v key = Raise TypeError.
Proof. now destruct v. Qed.

Lemma get_token_requests (w : World) :
  requests (snd (get_token w)) = [token_request w].
Proof.
  unfold get_token, get, token_request.
  destruct (http_get w _ _) as [r|]; run_m; [| reflexivity].
  unfold response_json. destruct (json r) as [body|]; run_m; [| reflexivity].
  destruct (getitem body "accessToken") as [v|e]; run_m;
    [reflexivity | now destruct e].
Qed.

(** X1. Whatever the console answers, [get_token] contacts it exactly once:
    one GET of the token endpoint carrying the API key, and nothing else. *)
Theorem get_token_one_request (w : World) :
  requests (snd (get_token w)) = [token_request w]
  /\ posts (snd (get_token w)) = [].
Proof.
  split; [apply get_token_requests | apply get_token_no_posts].
Qed.

(** X2. When the token request fails in transport, or its body is not
    JSON, or the body is an object without "accessToken", [get_token]
    returns [None] and has logged exactly one record. *)
Theorem get_token_failure (w : World) :
  let answer := http_get w (BASE_URL w ++ "/credentials/v2/token")
                  [("X-API-Key", CONSOLE_API_KEY w)] in
  answer = None
  \/ (exists r, answer = Some r /\ json r = None)
  \/ (exists r d, answer = Some r /\ json r = Some (VDict d)
                  /\ assoc "accessToken" d = None) ->
  fst (get_token w) = Ret VNone
  /\ exists m : logmsg, logs (snd (get_token w)) = [m].
Proof.
  intros answer H. subst answer. unfold get_token, get, response_json.
  destruct H as [H | [(r & H & Hj) | (r & d & H & Hj & Hd)]]; rewrite H;
    run_m.
  - split; [reflexivity | now eexists].
  - rewrite Hj. run_m. split; [reflexivity | now eexists].
  - rewrite Hj. run_m. unfold getitem. rewrite Hd. run_m.
    split; [reflexivity | now eexists].
Qed.

Lemma get_token_failure_witness :
  fst (get_token (world_of None None NotJson)) = Ret VNone
  /\ exists m : logmsg, logs (snd (get_token (world_of None None NotJson))) = [m].
Proof.
  apply (get_token_failure (world_of None None NotJson)).
  left. reflexivity.
Defined.

(** X3. When the token response is a JSON object with an "accessToken"
    member, [get_token] returns that member as it is, of whatever JSON
    type, and logs nothing. *)
Theorem get_token_returns_member (w : World) (r : Response)
    (d : list (string * value)) (v : value) :
  http_get w (BASE_URL w ++ "/credentials/v2/token")
    [("X-API-Key", CONSOLE_API_KEY w)] = Some r ->
  json r = Some (VDict d) ->
  assoc "accessToken" d = Some v ->
  get_token w = (Ret v, [token_request w]).
Proof.
  intros H Hj Hd. unfold get_token, get, response_json, token_request.
  rewrite H. run_m. rewrite Hj. run_m. unfold getitem. rewrite Hd.
  reflexivity.
Qed.

Lemma get_token_returns_member_witness :
  get_token (console NotJson)
  = (Ret (VStr "abc"), [token_request (console NotJson)]).
Proof.
  apply (get_token_returns_member (console NotJson)
           (mkResponse true "" (Some (VDict [("accessToken", VStr "abc")])))
           [("accessToken", VStr "abc")] (VStr "abc"));
    reflexivity.
Defined.

(** X4. When the token response parses to JSON that is not an object (a
    list, a string, a number, null), [get_token] raises a [TypeError] that
    none of its clauses catches, and logs nothing. *)
Theorem get_token_non_object (w : World) (r : Response) (body : value) :
  http_get w (BASE_URL w ++ "/credentials/v2/token")
    [("X-API-Key", CONSOLE_API_KEY w)] = Some r ->
  json r = Some body ->
  is_dict body = false ->
  get_token w = (Raise TypeError, [token_request w]).
Proof.
  intros H Hj Hd. unfold get_token, get, response_json, token_request.
  rewrite H. run_m. rewrite Hj. run_m.
  rewrite (getitem_not_dict _ _ Hd). reflexivity.
Qed.

Lemma get_token_non_object_witness :
  get_token (world_of (Some (json_response (VList []))) None NotJson)
  = (Raise TypeError,
     [token_request (world_of (Some (json_response (VList []))) None NotJson)]).
Proof.
  apply (get_token_non_object
           (world_of (Some (json_response (VList []))) None NotJson)
           (json_response (VList [])) (VList []));
    reflexivity.
Defined.

(** ** More on response interpretation *)

(** On an [ok] response whose body is a JSON object, [handle_response]
    comes down to this. *)
Lemma handle_response_object (r : Response) (action : string)
    (d : list (string * value)) :
  ok r = true -> json r = Some (VDict d) ->
  handle_response r action =
    match assoc "success" d with
    | None => (Ret false, [ELog (HandleResponseInvalidBody (VDict d))])
    | Some s =>
        if truthy s then (Ret true, [])
        else match assoc "errors" d with
             | Some errors =>
                 (Ret false, [ELog (ActionFailedErrors action errors)])
             | None =>
                 (Ret false, [ELog (HandleResponseInvalidBody (VDict d))])
             end
    end.
Proof.
  intros Hok Hj. unfold handle_response, response_json. rewrite Hok, Hj.
  run_m. unfold getitem.
  destruct (assoc "success" d) as [s|]; [| reflexivity].
  run_m. destruct (truthy s); [reflexivity |].
  run_m. destruct (assoc "errors" d); reflexivity.
Qed.

(** X5. [handle_response] is silent when it returns success and logs
    exactly one record when it returns failure; the only exception that
    escapes it is [TypeError], and then nothing has been logged. *)
Theorem handle_response_logging (r : Response) (action : string) :
  match fst (handle_response r action) with
  | Ret true => snd (handle_response r action) = []
  | Ret false => exists m : logmsg, snd (handle_response r action) = [ELog m]
  | Raise e => e = TypeError /\ snd (handle_response r action) = []
  end.
Proof.
  destruct (ok r) eqn:Hok;
    [| unfold handle_response; rewrite Hok; cbn; now eexists].
  destruct (json r) as [body|] eqn:Hj;
    [| unfold handle_response, response_json; rewrite Hok, Hj; cbn;
       now eexists].
  destruct (is_dict body) eqn:Hd.
  - destruct body; try discriminate.
    rewrite (handle_response_object r action d Hok Hj).
    destruct (assoc "success" d) as [s|]; [| cbn; now eexists].
    destruct (truthy s); [reflexivity |].
    destruct (assoc "errors" d); cbn; now eexists.
  - unfold handle_response, response_json. rewrite Hok, Hj. run_m.
    rewrite (getitem_not_dict _ _ Hd). cbn. now split.
Qed.

(** X6. [handle_response] raises exactly when the response is [ok] and its
    body parses to JSON that is not an object. *)
Theorem handle_response_raises_iff (r : Response) (action : string) :
  (exists e : exn, fst (handle_response r action) = Raise e) <->
  ok r = true /\
  exists body : value, json r = Some body /\ is_dict body = false.
Proof.
  destruct (ok r) eqn:Hok.
  2:{ unfold handle_response. rewrite Hok. cbn.
      split; [intros [e H]; discriminate | intros [H _]; discriminate]. }
  destruct (json r) as [body|] eqn:Hj.
  2:{ unfold handle_response, response_json. rewrite Hok, Hj. cbn.
      split; [intros [e H]; discriminate
             | intros [_ (b & H & _)]; discriminate]. }
  destruct (is_dict body) eqn:Hd.
  - destruct body; try discriminate.
    rewrite (handle_response_object r action d Hok Hj). split.
    + intros [e H]. destruct (assoc "success" d) as [s|];
        [destruct (truthy s); [| destruct (assoc "errors" d)] |];
        discriminate.
    + intros [_ (b & Hb & Hdb)]. injection Hb as <-. discriminate.
  - split; [intros _ | intros _].
    + split; [reflexivity |]. now exists body.
    + exists TypeError. unfold handle_response, response_json.
      rewrite Hok, Hj. run_m. now rewrite (getitem_not_dict _ _ Hd).
Qed.

(** X7. When the service reports a failure (an object whose "success"
    member has a false truth value), the record logged carries the action
    and the body's "errors" member; when that member is missing, or when
    "success" itself is missing, the body is reported as invalid.  The
    result is failure in each case. *)
Theorem handle_response_reported_failure (r : Response) (action : string)
    (d : list (string * value)) :
  ok r = true -> json r = Some (VDict d) ->
  (forall s errors,
     assoc "success" d = Some s -> truthy s = false ->
     assoc "errors" d = Some errors ->
     handle_response r action
     = (Ret false, [ELog (ActionFailedErrors action errors)]))
  /\ (forall s,
        assoc "success" d = Some s -> truthy s = false ->
        assoc "errors" d = None ->
        handle_response r action
        = (Ret false, [ELog (HandleResponseInvalidBody (VDict d))]))
  /\ (assoc "success" d = None ->
      handle_response r action
      = (Ret false, [ELog (HandleResponseInvalidBody (VDict d))])).
Proof.
  intros Hok Hj. rewrite (handle_response_object r action d Hok Hj).
  repeat split.
  - intros s errors -> -> ->. reflexivity.
  - intros s -> -> ->. reflexivity.
  - intros ->. reflexivity.
Qed.

Lemma handle_response_reported_failure_witness :
  handle_response
    (json_response (VDict [("success", VBool false);
                           ("errors", VList [VStr "bad type"])]))
    "validation"
  = (Ret false,
     [ELog (ActionFailedErrors "validation" (VList [VStr "bad type"]))]).
Proof.
  apply (proj1 (handle_response_reported_failure
                  (json_response (VDict [("success", VBool false);
                                         ("errors", VList [VStr "bad type"])]))
                  "validation"
                  [("success", VBool false);
                   ("errors", VList [VStr "bad type"])]
                  eq_refl eq_refl)
           (VBool false) (VList [VStr "bad type"]));
    reflexivity.
Defined.

(** ** Requests and their authorization *)

(** X8. [validate] (for a schema type it accepts) and [promote] each send
    exactly one request, a POST whose only header is the authorization
    with the bearer token; they never request a token themselves. *)
Theorem dispatch_one_authorized_request (w : World) (t : string) :
  (forall (doc : value) (stype : string) (meta : bool),
     is_schema_type stype = true ->
     requests (snd (validate w doc (VStr t) stype meta)) =
       [EPost (DS_URL w ++ "/validation-requests")
          (validation_payload doc stype meta)
          [("Authorization", "Bearer " ++ t)]])
  /\ (forall (d : Deployment) (msg : string) (to_production : bool),
        requests (snd (promote w d (VStr t) msg to_production)) =
          [EPost (DS_URL w ++ "/deployment-requests")
             (promotion_payload w d msg to_production)
             [("Authorization", "Bearer " ++ t)]]).
Proof.
  split.
  - intros doc stype meta Hty. rewrite (validate_run _ _ _ _ _ Hty).
    cbn [snd].
    change (requests (EPost ?u ?b ?h :: ?x)) with (EPost u b h :: requests x).
    now rewrite after_post_quiet.
  - intros d msg to_production. rewrite promote_run. cbn [snd].
    change (requests (EPost ?u ?b ?h :: ?x)) with (EPost u b h :: requests x).
    now rewrite after_post_quiet.
Qed.

Lemma dispatch_one_authorized_request_witness :
  requests (snd (validate (console NotJson) (acme_document (VStr "1-0-0"))
                   (VStr "abc") "event" false)) =
    [EPost (DS_URL (console NotJson) ++ "/validation-requests")
       (validation_payload (acme_document (VStr "1-0-0")) "event" false)
       [("Authorization", "Bearer abc")]].
Proof.
  apply (proj1 (dispatch_one_authorized_request (console NotJson) "abc")).
  reflexivity.
Defined.

(** ** More on identity resolution *)

(** Once the [self] section is found to be an object, [resolve] comes
    down to this. *)
Lemma resolve_on_self (doc : value) (d : list (string * value)) :
  getitem doc "self" = Ret (VDict d) ->
  resolve doc false =
    match assoc "vendor" d, assoc "name" d, assoc "format" d,
          assoc "version" d with
    | Some v, Some n, Some f, Some (VStr s) =>
        match split_on "-"%char s with
        | [a; b; c] =>
            (Ret (Some (mkDeployment (mkDataStructure v n f)
                          (mkVersion (VStr a) (VStr b) (VStr c)))), [])
        | _ => (Raise TypeError, [])
        end
    | Some v, Some n, Some f, Some _ => (Raise AttributeError, [])
    | _, _, _, _ => (Ret None, [ELog NoSelfElement])
    end.
Proof.
  intros Hself. unfold resolve. cbn [negb]. rewrite Hself. run_m.
  unfold getitem.
  destruct (assoc "vendor" d) as [v|]; [| reflexivity]. run_m.
  destruct (assoc "name" d) as [n|]; [| reflexivity]. run_m.
  destruct (assoc "format" d) as [f|]; [| reflexivity]. run_m.
  destruct (assoc "version" d) as [ver|]; [| reflexivity]. run_m.
  destruct ver; try reflexivity. cbn [str_split]. run_m.
  destruct (split_on "-"%char s) as [|a [|b [|c [|x l]]]]; reflexivity.
Qed.

Lemma resolve_under_data (doc data : value) :
  getitem doc "data" = Ret data -> resolve doc true = resolve data false.
Proof.
  intros H. unfold resolve. cbn [negb]. rewrite H. run_m.
  now destruct (getitem data "self").
Qed.

(** X9. With the envelope flag, [resolve] does to a document what it does
    without the flag to the document's "data" member. *)
Theorem resolve_envelope (d : list (string * value)) (doc : value) :
  assoc "data" d = Some doc ->
  resolve (VDict d) true = resolve doc false.
Proof.
  intros H. apply resolve_under_data. unfold getitem. now rewrite H.
Qed.

Lemma resolve_envelope_witness :
  resolve (VDict [("meta", VDict []); ("data", acme_document (VStr "1-0-0"))])
    true
  = resolve (acme_document (VStr "1-0-0")) false.
Proof.
  apply (resolve_envelope
           [("meta", VDict []); ("data", acme_document (VStr "1-0-0"))]
           (acme_document (VStr "1-0-0"))).
  reflexivity.
Defined.

Lemma resolve_shape_plain (doc : value) :
  match fst (resolve doc false) with
  | Ret (Some _) => snd (resolve doc false) = []
  | Ret None => snd (resolve doc false) = [ELog NoSelfElement]
  | Raise e =>
      (e = TypeError \/ e = AttributeError) /\ snd (resolve doc false) = []
  end.
Proof.
  destruct (getitem doc "self") as [self|e] eqn:Hself.
  - destruct (is_dict self) eqn:Hd.
    + destruct self; try discriminate.
      rewrite (resolve_on_self doc d Hself).
      destruct (assoc "vendor" d); [| reflexivity].
      destruct (assoc "name" d); [| reflexivity].
      destruct (assoc "format" d); [| reflexivity].
      destruct (assoc "version" d) as [ver|]; [| reflexivity].
      destruct ver; cbn; auto.
      destruct (split_on "-"%char s) as [|a [|b [|c [|x l]]]]; cbn; auto.
    + unfold resolve. cbn [negb]. rewrite Hself. run_m.
      rewrite (getitem_not_dict _ _ Hd). cbn. auto.
  - unfold resolve. cbn [negb]. rewrite Hself.
    destruct doc; cbn in Hself; try discriminate;
      try (injection Hself as <-; cbn; auto).
    destruct (assoc "self" d); [discriminate |].
    injection Hself as <-. reflexivity.
Qed.

(** X10. Whatever the document and the flag: when [resolve] returns a
    Deployment it has logged nothing; when it returns [None] it has logged
    exactly the record about the [self] element; otherwise it raises a
    [TypeError] or an [AttributeError] and has logged nothing.  The record
    of its [ValueError] clause is never logged. *)
Theorem resolve_outcomes (doc : value) (meta : bool) :
  match fst (resolve doc meta) with
  | Ret (Some _) => snd (resolve doc meta) = []
  | Ret None => snd (resolve doc meta) = [ELog NoSelfElement]
  | Raise e =>
      (e = TypeError \/ e = AttributeError) /\ snd (resolve doc meta) = []
  end.
Proof.
  destruct meta; [| apply resolve_shape_plain].
  destruct (getitem doc "data") as [data|e] eqn:Hdata.
  - rewrite (resolve_under_data doc data Hdata). apply resolve_shape_plain.
  - unfold resolve. cbn [negb]. rewrite Hdata.
    destruct doc; cbn in Hdata; try discriminate;
      try (injection Hdata as <-; cbn; auto).
    destruct (assoc "data" d); [discriminate |].
    injection Hdata as <-. reflexivity.
Qed.

(** X11. Without the flag, [resolve] returns a Deployment exactly when the
    document is an object whose [self] is an object that has "vendor",
    "name" and "format" members, stored as they are, and a "version"
    member that is a str with exactly three hyphen-separated parts, stored
    as the three substrings. *)
Theorem resolve_some_iff (doc : value) (dep : Deployment) :
  fst (resolve doc false) = Ret (Some dep) <->
  exists (d : list (string * value)) (s a b c : string),
    getitem doc "self" = Ret (VDict d)
    /\ assoc "vendor" d = Some (vendor (data_structure dep))
    /\ assoc "name" d = Some (name (data_structure dep))
    /\ assoc "format" d = Some (format (data_structure dep))
    /\ assoc "version" d = Some (VStr s)
    /\ split_on "-"%char s = [a; b; c]
    /\ version dep = mkVersion (VStr a) (VStr b) (VStr c).
Proof.
  split.
  - intros H.
    destruct (getitem doc "self") as [self|e] eqn:Hself.
    + destruct (is_dict self) eqn:Hd.
      * destruct self; try discriminate.
        rewrite (resolve_on_self doc d Hself) in H.
        destruct (assoc "vendor" d) as [v|] eqn:Hv; [| discriminate].
        destruct (assoc "name" d) as [n|] eqn:Hn; [| discriminate].
        destruct (assoc "format" d) as [f|] eqn:Hf; [| discriminate].
        destruct (assoc "version" d) as [ver|] eqn:Hver; [| discriminate].
        destruct ver; try discriminate.
        destruct (split_on "-"%char s) as [|a [|b [|c [|x l]]]] eqn:Hs;
          try discriminate.
        cbn in H. injection H as <-.
        exists d, s, a, b, c. repeat split; reflexivity || assumption.
      * unfold resolve in H. cbn [negb] in H. rewrite Hself in H. run_m.
        rewrite (getitem_not_dict _ _ Hd) in H. discriminate.
    + unfold resolve in H. cbn [negb] in H. rewrite Hself in H.
      destruct e; discriminate.
  - intros (d & s & a & b & c & Hself & Hv & Hn & Hf & Hver & Hs & Hdep).
    rewrite (resolve_on_self doc d Hself), Hv, Hn, Hf, Hver, Hs. cbn.
    destruct dep as [[v n f] ver]. cbn in *. now subst ver.
Qed.

(** X12. When the [self] object lacks one of "vendor", "name", "format"
    and "version", [resolve] returns [None] with the record about the
    [self] element, whatever the other members are. *)
Theorem resolve_missing_member (doc : value) (d : list (string * value)) :
  getitem doc "self" = Ret (VDict d) ->
  assoc "vendor" d = None \/ assoc "name" d = None
  \/ assoc "format" d = None \/ assoc "version" d = None ->
  resolve doc false = (Ret None, [ELog NoSelfElement]).
Proof.
  intros Hself H. rewrite (resolve_on_self doc d Hself).
  destruct (assoc "vendor" d); [| reflexivity].
  destruct (assoc "name" d); [| reflexivity].
  destruct (assoc "format" d); [| reflexivity].
  destruct (assoc "version" d); [| reflexivity].
  destruct H as [H | [H | [H | H]]]; discriminate.
Qed.

Lemma resolve_missing_member_witness :
  resolve (VDict [("self", VDict [("vendor", VStr "com.acme");
                                  ("name", VStr "click");
                                  ("version", VStr "1-0-0")])]) false
  = (Ret None, [ELog NoSelfElement]).
Proof.
  apply (resolve_missing_member
           (VDict [("self", VDict [("vendor", VStr "com.acme");
                                   ("name", VStr "click");
                                   ("version", VStr "1-0-0")])])
           [("vendor", VStr "com.acme"); ("name", VStr "click");
            ("version", VStr "1-0-0")]).
  - reflexivity.
  - right. right. left. reflexivity.
Defined.

(** X13. When the [self] object has its four members and the version is
    not a str (a number, say), [resolve] raises an [AttributeError] that it
    does not catch. *)
Theorem resolve_version_not_str (doc : value) (d : list (string * value))
    (v n f ver : value) :
  getitem doc "self" = Ret (VDict d) ->
  assoc "vendor" d = Some v -> assoc "name" d = Some n ->
  assoc "format" d = Some f -> assoc "version" d = Some ver ->
  (forall s, ver <> VStr s) ->
  resolve doc false = (Raise AttributeError, []).
Proof.
  intros Hself Hv Hn Hf Hver Hns.
  rewrite (resolve_on_self doc d Hself), Hv, Hn, Hf, Hver.
  destruct ver; try reflexivity. now destruct (Hns s).
Qed.

Lemma resolve_version_not_str_witness :
  resolve (acme_document (VInt 1)) false = (Raise AttributeError, []).
Proof.
  apply (resolve_version_not_str (acme_document (VInt 1))
           [("vendor", VStr "com.acme"); ("name", VStr "click");
            ("format", VStr "jsonschema"); ("version", VInt 1)]
           (VStr "com.acme") (VStr "click") (VStr "jsonschema") (VInt 1));
    try reflexivity.
  intros s. discriminate.
Defined.

(** X14. Resolution followed by promotion is a round trip on the document's
    identity: when [resolve] builds a Deployment from a [self] object whose
    version is a str, the one body [promote] posts carries the vendor, name
    and format members of the document and its version string, unchanged,
    with the message it was given. *)
Theorem resolve_then_promote (w : World) (doc : value)
    (d : list (string * value)) (v n f : value) (s : string)
    (dep : Deployment) (tok : value) (msg : string) (to_production : bool) :
  getitem doc "self" = Ret (VDict d) ->
  assoc "vendor" d = Some v -> assoc "name" d = Some n ->
  assoc "format" d = Some f -> assoc "version" d = Some (VStr s) ->
  fst (resolve doc false) = Ret (Some dep) ->
  exists body : value,
    posts (snd (promote w dep tok msg to_production)) =
      [(DS_URL w ++ "/deployment-requests", body)]
    /\ getitem body "vendor" = Ret v
    /\ getitem body "name" = Ret n
    /\ getitem body "format" = Ret f
    /\ getitem body "version" = Ret (VStr s)
    /\ getitem body "message" = Ret (VStr msg).
Proof.
  intros Hself Hv Hn Hf Hver Hr.
  rewrite (resolve_on_self doc d Hself), Hv, Hn, Hf, Hver in Hr.
  pose proof (split_on_join "-"%char s) as Hj.
  destruct (split_on "-"%char s) as [|a [|b [|c [|x l]]]];
    cbn [fst] in Hr; try discriminate.
  injection Hr as <-.
  exists (promotion_payload w
            (mkDeployment (mkDataStructure v n f)
               (mkVersion (VStr a) (VStr b) (VStr c))) msg to_production).
  split; [apply posts_promote |].
  cbn in Hj. cbn. rewrite Hj. repeat split; reflexivity.
Qed.

Lemma resolve_then_promote_witness :
  exists body : value,
    posts (snd (promote (console NotJson)
                  (mkDeployment
                     (mkDataStructure (VStr "com.acme") (VStr "click")
                        (VStr "jsonschema"))
                     (mkVersion (VStr "2") (VStr "10") (VStr "3")))
                  (VStr "abc") "release" false)) =
      [(DS_URL (console NotJson) ++ "/deployment-requests", body)]
    /\ getitem body "vendor" = Ret (VStr "com.acme")
    /\ getitem body "name" = Ret (VStr "click")
    /\ getitem body "format" = Ret (VStr "jsonschema")
    /\ getitem body "version" = Ret (VStr "2-10-3")
    /\ getitem body "message" = Ret (VStr "release").
Proof.
  apply (resolve_then_promote (console NotJson)
           (acme_document (VStr "2-10-3"))
           [("vendor", VStr "com.acme"); ("name", VStr "click");
            ("format", VStr "jsonschema"); ("version", VStr "2-10-3")]
           (VStr "com.acme") (VStr "click") (VStr "jsonschema") "2-10-3");
    reflexivity.
Defined.

(** ** More on the input and the flow *)

(** X15. [parse_input_file] never raises and contacts nobody.  It returns
    either the loaded value, with nothing logged, or [None] with exactly
    one record; an empty file name reads standard input, as no file name
    does. *)
Theorem parse_input_file_outcomes (w : World) (filename : option string) :
  (exists v : value,
     fst (parse_input_file w filename) = Ret v
     /\ requests (snd (parse_input_file w filename)) = []
     /\ ((json_load w (input_of filename) = Loaded v
          /\ snd (parse_input_file w filename) = [])
         \/ (v = VNone
             /\ exists m : logmsg,
                  snd (parse_input_file w filename) = [ELog m])))
  /\ parse_input_file w (Some "") = parse_input_file w None.
Proof.
  split; [| reflexivity].
  unfold parse_input_file.
  destruct (json_load w (input_of filename)) as [v| |].
  - exists v. cbn. auto.
  - exists VNone. cbn. split; [reflexivity |]. split; [reflexivity |].
    right. split; [reflexivity | now eexists].
  - exists VNone. cbn. split; [reflexivity |]. split; [reflexivity |].
    right. split; [reflexivity | now eexists].
Qed.

Lemma token_or_fetch_requests (w : World) (args : Namespace) :
  requests (snd (token_or_fetch w args)) =
    if explicit_token args then [] else [token_request w].
Proof.
  unfold token_or_fetch, explicit_token.
  destruct (token args) as [t|]; [destruct (truthy (VStr t)) |];
    try apply get_token_requests; reflexivity.
Qed.

Lemma flow_with_parts (w : World) (args : Namespace) (tok schema : value)
    (spec : Deployment) :
  fst (token_or_fetch w args) = Ret tok -> truthy tok = true ->
  fst (parse_input_file w (file args)) = Ret schema -> truthy schema = true ->
  fst (resolve schema (includes_meta args)) = Ret (Some spec) ->
  flow w args =
    (fst (dispatch w args tok schema spec),
     (snd (token_or_fetch w args) ++ snd (parse_input_file w (file args))
      ++ snd (resolve schema (includes_meta args))
      ++ snd (dispatch w args tok schema spec))%list).
Proof.
  intros Ht Htp Hs Hsp Hr.
  assert (E1 : token_or_fetch w args = (Ret tok, snd (token_or_fetch w args)))
    by (rewrite <- Ht; apply surjective_pairing).
  assert (E2 : parse_input_file w (file args)
               = (Ret schema, snd (parse_input_file w (file args))))
    by (rewrite <- Hs; apply surjective_pairing).
  assert (E3 : resolve schema (includes_meta args)
               = (Ret (Some spec), snd (resolve schema (includes_meta args))))
    by (rewrite <- Hr; apply surjective_pairing).
  unfold flow.
  rewrite (bind_run _ _ _ _ E1). cbn beta.
  rewrite (bind_run _ _ _ _ E2). cbn beta.
  rewrite (bind_run _ _ _ _ E3). cbn beta.
  rewrite Htp, Hsp. cbn [negb orb fst snd].
  replace (if promote_to_prod args then true else false)
    with (promote_to_prod args) by now destruct (promote_to_prod args).
  reflexivity.
Qed.

Lemma flow_requests_with_parts (w : World) (args : Namespace)
    (tok schema : value) (spec : Deployment) :
  fst (token_or_fetch w args) = Ret tok -> truthy tok = true ->
  fst (parse_input_file w (file args)) = Ret schema -> truthy schema = true ->
  fst (resolve schema (includes_meta args)) = Ret (Some spec) ->
  requests (snd (flow w args)) =
    (requests (snd (token_or_fetch w args))
     ++ requests (snd (dispatch w args tok schema spec)))%list.
Proof.
  intros Ht Htp Hs Hsp Hr.
  rewrite (flow_with_parts w args tok schema spec Ht Htp Hs Hsp Hr).
  cbn [snd]. rewrite !requests_app.
  now rewrite parse_input_file_quiet, resolve_quiet.
Qed.

(** Either [flow] stops before dispatching, or it has its three parts. *)
Lemma flow_cases (w : World) (args : Namespace) :
  (fst (flow w args) <> Ret true
   /\ requests (snd (flow w args)) = requests (snd (token_or_fetch w args)))
  \/ exists (tok schema : value) (spec : Deployment),
       fst (token_or_fetch w args) = Ret tok /\ truthy tok = true
       /\ fst (parse_input_file w (file args)) = Ret schema
       /\ truthy schema = true
       /\ fst (resolve schema (includes_meta args)) = Ret (Some spec).
Proof.
  destruct (token_or_fetch w args) as [[tok|e] t1] eqn:E1.
  2:{ left. unfold flow. rewrite (bind_raised _ _ _ _ E1).
      split; [discriminate | reflexivity]. }
  pose proof (parse_input_file_quiet w (file args)) as Q2.
  destruct (parse_input_file w (file args)) as [[schema|e] t2] eqn:E2.
  2:{ left. unfold flow. rewrite (bind_run _ _ _ _ E1). cbn beta.
      rewrite (bind_raised _ _ _ _ E2). cbn [fst snd] in *.
      split; [discriminate |].
      now rewrite requests_app, Q2, app_nil_r. }
  pose proof (resolve_quiet schema (includes_meta args)) as Q3.
  destruct (resolve schema (includes_meta args)) as [[spec|e] t3] eqn:E3.
  2:{ left. unfold flow. rewrite (bind_run _ _ _ _ E1). cbn beta.
      rewrite (bind_run _ _ _ _ E2). cbn beta.
      rewrite (bind_raised _ _ _ _ E3). cbn [fst snd] in *.
      split; [discriminate |].
      now rewrite !requests_app, Q2, Q3, !app_nil_r. }
  cbn [fst snd] in *.
  destruct (negb (truthy tok) || negb (truthy schema)) eqn:Hab;
    [| destruct spec as [spec|]].
  - left. unfold flow. rewrite (bind_run _ _ _ _ E1). cbn beta.
    rewrite (bind_run _ _ _ _ E2). cbn beta.
    rewrite (bind_run _ _ _ _ E3). cbn beta. rewrite Hab.
    cbn [fst snd ret]. split; [discriminate |].
    now rewrite !requests_app, Q2, Q3, !app_nil_r.
  - right. exists tok, schema, spec.
    apply orb_false_iff in Hab. destruct Hab as [Ha Hb].
    apply negb_false_iff in Ha, Hb.
    repeat split; try solve [reflexivity | assumption].
    now rewrite E3.
  - left. unfold flow. rewrite (bind_run _ _ _ _ E1). cbn beta.
    rewrite (bind_run _ _ _ _ E2). cbn beta.
    rewrite (bind_run _ _ _ _ E3). cbn beta. rewrite Hab.
    cbn [fst snd ret]. split; [discriminate |].
    now rewrite !requests_app, Q2, Q3, !app_nil_r.
Qed.

Lemma after_post_true (sent : option Response) (action : string) :
  fst (after_post sent action) = Ret true ->
  exists r : Response, sent = Some r /\ ok r = true.
Proof.
  destruct sent as [r|]; cbn; [| discriminate].
  intros H. apply handle_response_true_iff in H. exists r. now split.
Qed.

(** The dispatch posts at most once, and succeeds only on an [ok] answer
    to what it posted. *)
Lemma dispatch_cases (w : World) (args : Namespace) (tok schema : value)
    (spec : Deployment) :
  (fst (dispatch w args tok schema spec) = Ret false
   /\ requests (snd (dispatch w args tok schema spec)) = [])
  \/ exists (url : string) (body : value),
       requests (snd (dispatch w args tok schema spec))
       = [EPost url body (get_base_headers w tok)]
       /\ (fst (dispatch w args tok schema spec) = Ret true ->
           exists r : Response,
             http_post w url body (get_base_headers w tok) = Some r
             /\ ok r = true).
Proof.
  unfold dispatch.
  destruct (promote_to_dev args || promote_to_prod args).
  - right. rewrite promote_run. cbn [fst snd].
    eexists. eexists. split.
    + change (requests (EPost ?u ?b ?h :: ?x))
        with (EPost u b h :: requests x).
      rewrite after_post_quiet. reflexivity.
    + apply after_post_true.
  - destruct (is_schema_type (or_default (type args) "event")) eqn:Hty.
    + right. rewrite (validate_run _ _ _ _ _ Hty). cbn [fst snd].
      eexists. eexists. split.
      * change (requests (EPost ?u ?b ?h :: ?x))
          with (EPost u b h :: requests x).
        rewrite after_post_quiet. reflexivity.
      * apply after_post_true.
    + left. unfold validate. rewrite Hty. split; reflexivity.
Qed.

Lemma posts_requests (t : trace) : posts (requests t) = posts t.
Proof.
  induction t as [|e t IH]; [reflexivity |].
  destruct e; cbn; try exact IH. now f_equal.
Qed.

Lemma flow_trace_prefix (w : World) (args : Namespace) :
  exists rest : trace,
    snd (flow w args) = (snd (token_or_fetch w args) ++ rest)%list.
Proof.
  unfold flow, bind at 1.
  destruct (token_or_fetch w args) as [[tok|e] t1]; cbn [snd].
  - match goal with |- context [let (_, _) := ?m in _] => destruct m end.
    now eexists.
  - exists []. now rewrite app_nil_r.
Qed.

Lemma get_token_first (w : World) :
  exists rest : trace, snd (get_token w) = token_request w :: rest.
Proof.
  unfold get_token, get, token_request.
  destruct (http_get w _ _) as [r|]; run_m; [| now eexists].
  unfold response_json. destruct (json r) as [body|]; run_m; [| now eexists].
  destruct (getitem body "accessToken") as [v|e]; run_m;
    [now eexists | destruct e; now eexists].
Qed.

(** X16. A flow contacts the console at most twice, whatever happens: at
    most one request for a token, then at most one POST. *)
Theorem flow_request_budget (w : World) (args : Namespace) :
  exists g p : list event,
    requests (snd (flow w args)) = (g ++ p)%list
    /\ (g = [] \/ g = [token_request w])
    /\ (p = [] \/ exists url body h, p = [EPost url body h]).
Proof.
  exists (requests (snd (token_or_fetch w args))).
  assert (Hg : requests (snd (token_or_fetch w args)) = []
               \/ requests (snd (token_or_fetch w args)) = [token_request w])
    by (rewrite token_or_fetch_requests; destruct (explicit_token args); auto).
  destruct (flow_cases w args)
    as [[_ Hreq] | (tok & schema & spec & Ht & Htp & Hs & Hsp & Hr)].
  - exists []. rewrite app_nil_r. auto.
  - exists (requests (snd (dispatch w args tok schema spec))).
    split; [now apply flow_requests_with_parts |]. split; [exact Hg |].
    destruct (dispatch_cases w args tok schema spec)
      as [[_ H] | (url & body & H & _)]; [now left | right].
    now exists url, body, (get_base_headers w tok).
Qed.

(** X17. A flow returns success only after exactly one POST that the
    console answered with an [ok] response. *)
Theorem flow_success_needs_answer (w : World) (args : Namespace) :
  fst (flow w args) = Ret true ->
  exists (url : string) (body : value) (h : headers) (r : Response),
    posts (snd (flow w args)) = [(url, body)]
    /\ In (EPost url body h) (snd (flow w args))
    /\ http_post w url body h = Some r
    /\ ok r = true.
Proof.
  intros Htrue.
  destruct (flow_cases w args)
    as [[Hne _] | (tok & schema & spec & Ht & Htp & Hs & Hsp & Hr)];
    [now destruct Hne |].
  pose proof (flow_requests_with_parts w args tok schema spec Ht Htp Hs Hsp Hr)
    as Hreq.
  rewrite (flow_with_parts w args tok schema spec Ht Htp Hs Hsp Hr) in Htrue.
  cbn [fst] in Htrue.
  destruct (dispatch_cases w args tok schema spec)
    as [[Hf _] | (url & body & Hd & Hans)];
    [rewrite Hf in Htrue; discriminate |].
  destruct (Hans Htrue) as (r & Hpost & Hok).
  exists url, body, (get_base_headers w tok), r.
  rewrite Hd in Hreq. repeat split; try assumption.
  - rewrite <- posts_requests, Hreq, posts_app, posts_requests.
    now rewrite token_or_fetch_no_posts.
  - assert (Hin : In (EPost url body (get_base_headers w tok))
                    (requests (snd (flow w args))))
      by (rewrite Hreq; apply in_or_app; right; now left).
    unfold requests in Hin. now apply filter_In in Hin.
Qed.

Lemma flow_success_needs_answer_witness :
  exists (url : string) (body : value) (h : headers) (r : Response),
    posts (snd (flow (console (Loaded (acme_document (VStr "1-0-0"))))
                  (cli (Some "abc") true false))) = [(url, body)]
    /\ In (EPost url body h)
         (snd (flow (console (Loaded (acme_document (VStr "1-0-0"))))
                 (cli (Some "abc") true false)))
    /\ http_post (console (Loaded (acme_document (VStr "1-0-0")))) url body h
       = Some r
    /\ ok r = true.
Proof.
  apply (flow_success_needs_answer
           (console (Loaded (acme_document (VStr "1-0-0"))))
           (cli (Some "abc") true false)).
  reflexivity.
Defined.

(** X18. When the command line gives a non-empty token, a flow never asks
    the console for one, and the only request it can send is a POST
    authorized with that token. *)
Theorem flow_uses_given_token (w : World) (args : Namespace) (t : string) :
  token args = Some t -> t <> "" ->
  requests (snd (flow w args)) = []
  \/ exists (url : string) (body : value),
       requests (snd (flow w args))
       = [EPost url body [("Authorization", "Bearer " ++ t)]].
Proof.
  intros Htok Hne.
  assert (Hex : explicit_token args = true).
  { unfold explicit_token. rewrite Htok. cbn.
    apply negb_true_iff, String.eqb_neq, Hne. }
  assert (Hfetch : token_or_fetch w args = ret (VStr t)).
  { unfold token_or_fetch. rewrite Htok.
    unfold explicit_token in Hex. rewrite Htok in Hex. now rewrite Hex. }
  pose proof (token_or_fetch_requests w args) as Hg. rewrite Hex in Hg.
  destruct (flow_cases w args)
    as [[_ Hreq] | (tok & schema & spec & Ht & Htp & Hs & Hsp & Hr)].
  - left. now rewrite Hreq.
  - rewrite (flow_requests_with_parts w args tok schema spec Ht Htp Hs Hsp Hr),
      Hg.
    rewrite Hfetch in Ht. cbn in Ht. injection Ht as <-.
    destruct (dispatch_cases w args (VStr t) schema spec)
      as [[_ H] | (url & body & H & _)]; [left | right]; rewrite H;
      [reflexivity |].
    now exists url, body.
Qed.

Lemma flow_uses_given_token_witness :
  requests (snd (flow (console (Loaded (acme_document (VStr "1-0-0"))))
                   (cli (Some "abc") false false))) = []
  \/ exists (url : string) (body : value),
       requests (snd (flow (console (Loaded (acme_document (VStr "1-0-0"))))
                        (cli (Some "abc") false false)))
       = [EPost url body [("Authorization", "Bearer " ++ "abc")]].
Proof.
  apply (flow_uses_given_token
           (console (Loaded (acme_document (VStr "1-0-0"))))
           (cli (Some "abc") false false) "abc").
  - reflexivity.
  - discriminate.
Defined.

(** X19. When the command line gives no token, or an empty one, the first
    thing a flow does is to request a token, before the input is looked
    at. *)
Theorem flow_fetches_token_first (w : World) (args : Namespace) :
  token args = None \/ token args = Some "" ->
  exists rest : trace, snd (flow w args) = token_request w :: rest.
Proof.
  intros Htok.
  assert (Hfetch : token_or_fetch w args = get_token w)
    by (unfold token_or_fetch; destruct Htok as [-> | ->]; reflexivity).
  destruct (flow_trace_prefix w args) as [rest Hrest].
  destruct (get_token_first w) as [rest' Hfirst].
  rewrite Hfetch, Hfirst in Hrest. rewrite Hrest. now eexists.
Qed.

Lemma flow_fetches_token_first_witness :
  exists rest : trace,
    snd (flow (console NotJson) (cli (Some "") false false))
    = token_request (console NotJson) :: rest.
Proof.
  apply (flow_fetches_token_first (console NotJson)
           (cli (Some "") false false)).
  right. reflexivity.
Defined.

(** X20. When a promotion flag is set and the flow has its three parts, the
    one body it posts goes to the deployment endpoint; its target is "PROD"
    (from "DEV") exactly when the production flag is set and "DEV" (from
    "VALIDATED") otherwise, and its message is the one given, or
    "No message provided" when none or an empty one is given. *)
Theorem flow_promotion_body (w : World) (args : Namespace)
    (tok schema : value) (spec : Deployment) :
  promote_to_dev args || promote_to_prod args = true ->
  fst (token_or_fetch w args) = Ret tok -> truthy tok = true ->
  fst (parse_input_file w (file args)) = Ret schema -> truthy schema = true ->
  fst (resolve schema (includes_meta args)) = Ret (Some spec) ->
  exists body : value,
    posts (snd (flow w args)) = [(DS_URL w ++ "/deployment-requests", body)]
    /\ getitem body "source"
       = Ret (VStr (if promote_to_prod args then "DEV" else "VALIDATED"))
    /\ getitem body "target"
       = Ret (VStr (if promote_to_prod args then "PROD" else "DEV"))
    /\ getitem body "message"
       = Ret (VStr (match message args with
                    | Some m => if String.eqb m "" then "No message provided"
                                else m
                    | None => "No message provided"
                    end)).
Proof.
  intros Hflag Ht Htp Hs Hsp Hr.
  exists (promotion_payload w spec
            (or_default (message args) "No message provided")
            (promote_to_prod args)).
  split.
  - rewrite <- posts_requests,
      (flow_requests_with_parts w args tok schema spec Ht Htp Hs Hsp Hr),
      posts_app, !posts_requests, token_or_fetch_no_posts.
    unfold dispatch. rewrite Hflag. apply posts_promote.
  - destruct (promote_to_prod args); repeat split; try reflexivity;
      cbn; unfold or_default; destruct (message args) as [m|];
      try reflexivity; cbn; now destruct (String.eqb m "").
Qed.

Lemma flow_promotion_body_witness :
  exists body : value,
    posts (snd (flow (console (Loaded (acme_document (VStr "1-0-0"))))
                  (cli (Some "abc") true false)))
    = [(DS_URL (console (Loaded (acme_document (VStr "1-0-0"))))
          ++ "/deployment-requests", body)]
    /\ getitem body "source" = Ret (VStr "VALIDATED")
    /\ getitem body "target" = Ret (VStr "DEV")
    /\ getitem body "message" = Ret (VStr "No message provided").
Proof.
  apply (flow_promotion_body
           (console (Loaded (acme_document (VStr "1-0-0"))))
           (cli (Some "abc") true false)
           (VStr "abc") (acme_document (VStr "1-0-0"))
           (mkDeployment
              (mkDataStructure (VStr "com.acme") (VStr "click")
                 (VStr "jsonschema"))
              (mkVersion (VStr "1") (VStr "0") (VStr "0"))));
    reflexivity.
Defined.

(** X21. When no promotion flag is set, the type given is "event" or
    "entity" and the flow has its three parts, the one body it posts goes
    to the validation endpoint: the input document wrapped with that type,
    or, under the envelope flag, the input document itself. *)
Theorem flow_validation_body (w : World) (args : Namespace) (ty : string)
    (tok schema : value) (spec : Deployment) :
  promote_to_dev args = false -> promote_to_prod args = false ->
  type args = Some ty -> ty = "event" \/ ty = "entity" ->
  fst (token_or_fetch w args) = Ret tok -> truthy tok = true ->
  fst (parse_input_file w (file args)) = Ret schema -> truthy schema = true ->
  fst (resolve schema (includes_meta args)) = Ret (Some spec) ->
  posts (snd (flow w args)) =
    [(DS_URL w ++ "/validation-requests",
      if includes_meta args then schema
      else VDict [("meta", VDict [("hidden", VBool false);
                                  ("schemaType", VStr ty);
                                  ("customData", VDict [])]);
                  ("data", schema)])].
Proof.
  intros Hdev Hprod Hty Hvalid Ht Htp Hs Hsp Hr.
  rewrite <- posts_requests,
    (flow_requests_with_parts w args tok schema spec Ht Htp Hs Hsp Hr),
    posts_app, !posts_requests, token_or_fetch_no_posts.
  unfold dispatch. rewrite Hdev, Hprod, Hty. cbn [orb app].
  assert (Hor : or_default (Some ty) "event" = ty)
    by (destruct Hvalid as [-> | ->]; reflexivity).
  rewrite Hor, posts_validate by now apply is_schema_type_true.
  unfold validation_payload. now destruct (includes_meta args).
Qed.

Lemma flow_validation_body_witness :
  posts (snd (flow (console (Loaded (acme_document (VStr "1-0-0"))))
                (mkNamespace false (Some "abc") None (Some "entity") false
                   false false None))) =
    [(DS_URL (console (Loaded (acme_document (VStr "1-0-0"))))
        ++ "/validation-requests",
      VDict [("meta", VDict [("hidden", VBool false);
                             ("schemaType", VStr "entity");
                             ("customData", VDict [])]);
             ("data", acme_document (VStr "1-0-0"))])].
Proof.
  apply (flow_validation_body
           (console (Loaded (acme_document (VStr "1-0-0"))))
           (mkNamespace false (Some "abc") None (Some "entity") false
              false false None)
           "entity" (VStr "abc") (acme_document (VStr "1-0-0"))
           (mkDeployment
              (mkDataStructure (VStr "com.acme") (VStr "click")
                 (VStr "jsonschema"))
              (mkVersion (VStr "1") (VStr "0") (VStr "0"))));
    try reflexivity.
  right. reflexivity.
Defined.

(** X22. When the token, the document and the identity have all been
    computed and one of them is absent (a token or a document with a false
    truth value, or no Deployment), a flow returns failure and has sent
    nothing beyond its request for a token, if it made one. *)
Theorem flow_stops_on_missing_part (w : World) (args : Namespace)
    (tok schema : value) (spec : option Deployment) :
  fst (token_or_fetch w args) = Ret tok ->
  fst (parse_input_file w (file args)) = Ret schema ->
  fst (resolve schema (includes_meta args)) = Ret spec ->
  truthy tok = false \/ truthy schema = false \/ spec = None ->
  fst (flow w args) = Ret false
  /\ requests (snd (flow w args)) = requests (snd (token_or_fetch w args)).
Proof.
  intros Ht Hs Hr Habsent.
  split; [now apply (flow_absent_part w args tok schema spec) |].
  destruct (flow_cases w args)
    as [[_ Hreq] | (tok' & schema' & spec' & Ht' & Htp & Hs' & Hsp & Hr')];
    [exact Hreq |].
  rewrite Ht in Ht'. injection Ht' as <-.
  rewrite Hs in Hs'. injection Hs' as <-.
  rewrite Hr in Hr'. injection Hr' as ->.
  destruct Habsent as [H | [H | H]]; congruence.
Qed.

Lemma flow_stops_on_missing_part_witness :
  fst (flow (console (Loaded (VDict []))) (cli (Some "abc") false false))
  = Ret false
  /\ requests (snd (flow (console (Loaded (VDict [])))
                      (cli (Some "abc") false false)))
     = requests (snd (token_or_fetch (console (Loaded (VDict [])))
                        (cli (Some "abc") false false))).
Proof.
  apply (flow_stops_on_missing_part (console (Loaded (VDict [])))
           (cli (Some "abc") false false) (VStr "abc") (VDict []) None);
    try reflexivity.
  right. left. reflexivity.
Defined.

(** ** The process *)

(** X23. In token-only mode a run sends the token request and nothing
    else.  A token that is a non-empty str is written to standard output
    and the run exits with 0; a token with a false truth value (none, or
    empty) gives exit 1 with nothing written; a token with a true truth
    value that is not a str makes the write raise a [TypeError]. *)
Theorem token_only_run (w : World) (args : Namespace) :
  token_only args = true ->
  requests (snd (run w args)) = [token_request w]
  /\ (forall s : string,
        fst (get_token w) = Ret (VStr s) -> s <> "" ->
        run w args = (Exit 0, (snd (get_token w) ++ [EStdout s])%list))
  /\ (forall v : value,
        fst (get_token w) = Ret v -> truthy v = false ->
        run w args = (Exit 1, snd (get_token w)))
  /\ (forall v : value,
        fst (get_token w) = Ret v -> truthy v = true -> (forall s, v <> VStr s) ->
        run w args = (Traceback TypeError, snd (get_token w))).
Proof.
  intros Hmode. unfold run, main. rewrite Hmode.
  pose proof (get_token_requests w) as Hreq.
  destruct (get_token w) as [[v|e] t]; cbn [fst snd] in *.
  - split.
    + cbn [bind]. destruct (truthy v); cbn [negb].
      * destruct v; cbn; rewrite ?app_nil_r; try exact Hreq.
        now rewrite requests_app, Hreq.
      * cbn. now rewrite app_nil_r.
    + repeat split.
      * intros s Hv Hne. injection Hv as ->. cbn [bind].
        assert (Htr : truthy (VStr s) = true)
          by (cbn; apply negb_true_iff, String.eqb_neq, Hne).
        rewrite Htr. reflexivity.
      * intros v' Hv Hf. injection Hv as <-. cbn [bind]. rewrite Hf. cbn.
        now rewrite app_nil_r.
      * intros v' Hv Htr Hns. injection Hv as <-. cbn [bind]. rewrite Htr.
        destruct v; cbn; rewrite ?app_nil_r; try reflexivity.
        now destruct (Hns s).
  - split; [exact Hreq |]. repeat split; intros; discriminate.
Qed.

Lemma token_only_run_witness :
  run (console NotJson)
    (mkNamespace true None None None false true true None)
  = (Exit 0, (snd (get_token (console NotJson)) ++ [EStdout "abc"])%list).
Proof.
  refine (proj1 (proj2 (token_only_run (console NotJson)
                          (mkNamespace true None None None false true true
                             None) eq_refl)) "abc" eq_refl _).
  discriminate.
Defined.

